(** * terraform-provider-instatus: the component resource

    A shallow embedding of [instatus/component_resource.go] and the
    properties of its lifecycle operations (Create, Read, Update, Delete,
    ImportState).

    Go values are embedded as follows:
    - a Go [string] is a [string] (a sequence of bytes);
    - a pointer [*string] / [*bool] is an [option]: [None] is [nil];
    - the plugin framework's [types.String] / [types.Bool] are three-state
      values (null, unknown, known);
    - [resp.Diagnostics] is a list of diagnostics, [resp.State] an optional
      model ([None] is the null state);
    - calls to the remote API client are nodes of a small program tree, so
      the outgoing request of an operation is part of its meaning. *)

From Stdlib Require Import String Ascii List Bool Arith Lia.
Import ListNotations.

Local Open Scope list_scope.
Local Open Scope string_scope.

(* ================================================================== *)
(** ** Go's [strings] package *)

Module strings.

(** [strings.Split(s, sep)] for a one-byte separator: [s] is cut at every
    occurrence of [sep]; the result has one more element than [s] has
    separators, so it is never empty and the split of the empty string is the empty string alone. *)
Fixpoint Split (s : string) (sep : ascii) : list string :=
  match s with
  | EmptyString => [EmptyString]
  | String c rest =>
      if Ascii.eqb c sep then EmptyString :: Split rest sep
      else match Split rest sep with
           | [] => [String c EmptyString]
           | seg :: segs => String c seg :: segs
           end
  end.

(** [strings.Join(elems, sep)], the inverse used to state round trips. *)
Fixpoint Join (elems : list string) (sep : ascii) : string :=
  match elems with
  | [] => EmptyString
  | [e] => e
  | e :: rest => e ++ String sep (Join rest sep)
  end.

(** [strings.Contains(s, substr)] as a proposition. *)
Definition Contains (s substr : string) : Prop :=
  exists pre post, s = pre ++ substr ++ post.

(** [strings.IndexByte(s, c) < 0] as a boolean: [c] does not occur. *)
Fixpoint lacks (c : ascii) (s : string) : bool :=
  match s with
  | EmptyString => true
  | String a rest => negb (Ascii.eqb a c) && lacks c rest
  end.

End strings.

(** The byte ['/'], the separator of the import identifier. *)
Definition slash : ascii := "/"%char.

(* ================================================================== *)
(** ** The plugin framework's value types ([types]) *)

Module types.

Inductive String : Type :=
| StringNull
| StringUnknown
| StringValue (value : string).

Inductive Bool : Type :=
| BoolNull
| BoolUnknown
| BoolValue (value : bool).

Definition String_IsNull (s : String) : bool :=
  match s with StringNull => true | _ => false end.

Definition Bool_IsNull (b : Bool) : bool :=
  match b with BoolNull => true | _ => false end.

(** [ValueString]: the known value, the empty string for null and unknown. *)
Definition ValueString (s : String) : string :=
  match s with StringValue v => v | _ => EmptyString end.

(** [ValueStringPointer]: [nil] for null, a pointer to the value
    otherwise (to the empty string for unknown). *)
Definition ValueStringPointer (s : String) : option string :=
  match s with
  | StringNull => None
  | StringUnknown => Some EmptyString
  | StringValue v => Some v
  end.

(** [ValueBoolPointer]: [nil] for null, a pointer to the value
    otherwise (to [false] for unknown). *)
Definition ValueBoolPointer (b : Bool) : option bool :=
  match b with
  | BoolNull => None
  | BoolUnknown => Some false
  | BoolValue v => Some v
  end.

(** [types.StringPointerValue]: null for [nil], known otherwise. *)
Definition StringPointerValue (p : option string) : String :=
  match p with None => StringNull | Some v => StringValue v end.

(** [types.BoolPointerValue]: null for [nil], known otherwise. *)
Definition BoolPointerValue (p : option bool) : Bool :=
  match p with None => BoolNull | Some v => BoolValue v end.

End types.

(** [p != nil] on a pointer. *)
Definition not_nil {A : Type} (p : option A) : bool :=
  match p with Some _ => true | None => false end.

(* ================================================================== *)
(** ** Diagnostics ([diag]) *)

Module diag.

Inductive Severity : Type := SeverityError | SeverityWarning.

Record Diagnostic : Type := NewDiagnostic
  { severity : Severity; Summary : string; Detail : string }.

Definition Diagnostics : Type := list Diagnostic.

Definition NewErrorDiagnostic (summary detail : string) : Diagnostic :=
  NewDiagnostic SeverityError summary detail.

Definition Severity_eqb (a b : Severity) : bool :=
  match a, b with
  | SeverityError, SeverityError => true
  | SeverityWarning, SeverityWarning => true
  | _, _ => false
  end.

(** [Diagnostic.Equal]: same severity, summary and detail. *)
Definition Equal (a b : Diagnostic) : bool :=
  Severity_eqb (severity a) (severity b)
  && String.eqb (Summary a) (Summary b)
  && String.eqb (Detail a) (Detail b).

(** [Diagnostics.Contains]. *)
Definition Contains (diags : Diagnostics) (d : Diagnostic) : bool :=
  existsb (Equal d) diags.

(** [Diagnostics.Append]: a diagnostic already present is skipped. *)
Fixpoint Append (diags : Diagnostics) (new : list Diagnostic) : Diagnostics :=
  match new with
  | [] => diags
  | d :: rest =>
      if Contains diags d then Append diags rest
      else Append (diags ++ [d])%list rest
  end.

Definition AddError (diags : Diagnostics) (summary detail : string)
  : Diagnostics :=
  Append diags [NewErrorDiagnostic summary detail].

(** [Diagnostics.HasError]. *)
Definition HasError (diags : Diagnostics) : bool :=
  existsb (fun d => Severity_eqb (severity d) SeverityError) diags.

End diag.

(* ================================================================== *)
(** ** The resource schema ([schema], [booldefault], [planmodifier]) *)

Module schema.

Inductive Kind : Type := StringAttribute | BoolAttribute.

Inductive DefaultValue : Type := StaticBool (b : bool).

Inductive PlanModifier : Type := UseStateForUnknown.

Record Attribute : Type := mkAttribute
  { kind : Kind;
    Description : string;
    Required : bool;
    Optional : bool;
    Computed : bool;
    Default : option DefaultValue;
    PlanModifiers : list PlanModifier }.

Record Schema : Type := mkSchema
  { SchemaDescription : string;
    Attributes : list (string * Attribute) }.

(** Lookup in the [map[string]schema.Attribute] literal. *)
Fixpoint lookup (name : string) (attrs : list (string * Attribute))
  : option Attribute :=
  match attrs with
  | [] => None
  | (k, a) :: rest => if String.eqb k name then Some a else lookup name rest
  end.

End schema.

(** [componentResource.Schema]. *)
Definition Schema : schema.Schema :=
  schema.mkSchema "Manages a component."
    [ ("id",
       schema.mkAttribute schema.StringAttribute
         "String Identifier of the component."
         false false true None [schema.UseStateForUnknown]);
      ("page_id",
       schema.mkAttribute schema.StringAttribute
         "String Identifier of the page of the component."
         true false false None []);
      ("name",
       schema.mkAttribute schema.StringAttribute
         "Name of the component."
         true false false None []);
      ("description",
       schema.mkAttribute schema.StringAttribute
         "Description of the component."
         false true false None []);
      ("show_uptime",
       schema.mkAttribute schema.BoolAttribute
         "Whether show uptime is enabled in the component."
         false true false None []);
      ("grouped",
       schema.mkAttribute schema.BoolAttribute
         "Whether the component is in a group (Require group set to desired name when true)."
         false true true (Some (schema.StaticBool false)) []);
      ("group_name",
       schema.mkAttribute schema.StringAttribute
         "Name of the group for the component (Require grouped set to true)."
         false true false None []);
      ("group_id",
       schema.mkAttribute schema.StringAttribute
         "Name of the group for the component (Require grouped set to true)."
         false true false None []) ].

(* ================================================================== *)
(** ** The resource model *)

(** [componentResourceModel]; the comment of each field is its [tfsdk] tag. *)
Record componentResourceModel : Type := mkModel
  { ID : types.String;            (* id *)
    Name : types.String;          (* name *)
    PageID : types.String;        (* page_id *)
    Description : types.String;   (* description *)
    ShowUptime : types.Bool;      (* show_uptime *)
    Grouped : types.Bool;         (* grouped *)
    GroupName : types.String;     (* group_name *)
    GroupId : types.String }.     (* group_id *)

(** Field assignments [m.F = v]. *)
Definition set_ID (v : types.String) (m : componentResourceModel) :=
  mkModel v (Name m) (PageID m) (Description m) (ShowUptime m) (Grouped m)
          (GroupName m) (GroupId m).
Definition set_Name (v : types.String) (m : componentResourceModel) :=
  mkModel (ID m) v (PageID m) (Description m) (ShowUptime m) (Grouped m)
          (GroupName m) (GroupId m).
Definition set_PageID (v : types.String) (m : componentResourceModel) :=
  mkModel (ID m) (Name m) v (Description m) (ShowUptime m) (Grouped m)
          (GroupName m) (GroupId m).
Definition set_Description (v : types.String) (m : componentResourceModel) :=
  mkModel (ID m) (Name m) (PageID m) v (ShowUptime m) (Grouped m)
          (GroupName m) (GroupId m).
Definition set_ShowUptime (v : types.Bool) (m : componentResourceModel) :=
  mkModel (ID m) (Name m) (PageID m) (Description m) v (Grouped m)
          (GroupName m) (GroupId m).
Definition set_Grouped (v : types.Bool) (m : componentResourceModel) :=
  mkModel (ID m) (Name m) (PageID m) (Description m) (ShowUptime m) v
          (GroupName m) (GroupId m).
Definition set_GroupName (v : types.String) (m : componentResourceModel) :=
  mkModel (ID m) (Name m) (PageID m) (Description m) (ShowUptime m) (Grouped m)
          v (GroupId m).
Definition set_GroupId (v : types.String) (m : componentResourceModel) :=
  mkModel (ID m) (Name m) (PageID m) (Description m) (ShowUptime m) (Grouped m)
          (GroupName m) v.

(* ================================================================== *)
(** ** Plan and state of the host runtime ([tfsdk], [path]) *)

Module path.

(** A path is its list of attribute-name steps. *)
Definition Path : Type := list string.
Definition Root (name : string) : Path := [name].
Definition Empty : Path := [].

End path.

Module tfsdk.

(** A state is null ([None]) or an object with every attribute of the
    schema. *)
Definition State : Type := option componentResourceModel.

(** The object whose attributes are all null. *)
Definition nullObject : componentResourceModel :=
  mkModel types.StringNull types.StringNull types.StringNull
          types.StringNull types.BoolNull types.BoolNull
          types.StringNull types.StringNull.

(** [Plan.Get] / [State.Get] into a [componentResourceModel]: every field
    of the struct is a framework value type, which holds null and unknown
    as well, so the conversion reports nothing. *)
Definition Get (raw : componentResourceModel)
  : componentResourceModel * diag.Diagnostics :=
  (raw, []).

(** [State.Set] with a [componentResourceModel]. *)
Definition Set_ (s : State) (val : componentResourceModel)
  : State * diag.Diagnostics :=
  (Some val, []).

(** Assignment of a string-typed attribute selected by its tag. *)
Definition setTagged (name : string) (v : types.String)
           (m : componentResourceModel) : componentResourceModel :=
  if String.eqb name "id" then set_ID v m
  else if String.eqb name "name" then set_Name v m
  else if String.eqb name "page_id" then set_PageID v m
  else if String.eqb name "description" then set_Description v m
  else if String.eqb name "group_name" then set_GroupName v m
  else if String.eqb name "group_id" then set_GroupId v m
  else m.

(** [State.SetAttribute] with a Go [string] value: the path must name a
    string attribute of the schema; a null state becomes an object whose
    other attributes are null. *)
Definition SetAttribute (s : State) (p : path.Path) (val : string)
  : State * diag.Diagnostics :=
  match p with
  | [name] =>
      match schema.lookup name (schema.Attributes Schema) with
      | Some a =>
          match schema.kind a with
          | schema.StringAttribute =>
              let obj := match s with Some m => m | None => nullObject end in
              (Some (setTagged name (types.StringValue val) obj), [])
          | schema.BoolAttribute =>
              (s, [diag.NewErrorDiagnostic "Value Conversion Error" name])
          end
      | None => (s, [diag.NewErrorDiagnostic "State Write Error" name])
      end
  | _ => (s, [diag.NewErrorDiagnostic "State Write Error" EmptyString])
  end.

(** Defaults of the schema during planning: a null configuration value of
    an attribute with a [Default] is planned as that default. *)
Definition planBool (name : string) (config : types.Bool) : types.Bool :=
  match schema.lookup name (schema.Attributes Schema) with
  | Some a =>
      match schema.Default a with
      | Some (schema.StaticBool b) =>
          if types.Bool_IsNull config then types.BoolValue b else config
      | None => config
      end
  | None => config
  end.

Definition applyDefaults (config : componentResourceModel)
  : componentResourceModel :=
  set_Grouped (planBool "grouped" (Grouped config))
    (set_ShowUptime (planBool "show_uptime" (ShowUptime config)) config).

End tfsdk.

(* ================================================================== *)
(** ** Requests and responses of the resource interface ([resource]) *)

Module Response.
(** The shape shared by [resource.CreateResponse], [ReadResponse],
    [UpdateResponse], [DeleteResponse] and [ImportStateResponse]. *)
Record t : Type := mk
  { State : tfsdk.State; Diagnostics : diag.Diagnostics }.

Definition set_State (s : tfsdk.State) (resp : t) : t :=
  mk s (Diagnostics resp).
Definition set_Diagnostics (d : diag.Diagnostics) (resp : t) : t :=
  mk (State resp) d.
End Response.

Module CreateRequest.
Record t : Type := mk { Plan : componentResourceModel }.
End CreateRequest.

Module ReadRequest.
Record t : Type := mk { State : componentResourceModel }.
End ReadRequest.

Module UpdateRequest.
Record t : Type := mk { Plan : componentResourceModel }.
End UpdateRequest.

Module DeleteRequest.
Record t : Type := mk { State : componentResourceModel }.
End DeleteRequest.

Module ImportStateRequest.
Record t : Type := mk { ID : string }.
End ImportStateRequest.

Module resource.

(** [resource.ImportStatePassthroughID]. *)
Definition ImportStatePassthroughID (attrPath : path.Path)
           (req : ImportStateRequest.t) (resp : Response.t) : Response.t :=
  let resp :=
    match attrPath with
    | [] => Response.set_Diagnostics
              (diag.AddError (Response.Diagnostics resp)
                 "Resource Import Passthrough Missing Attribute Path"
                 "Resource ImportState method call to ImportStatePassthroughID path must be set to a valid attribute path.")
              resp
    | _ => resp
    end in
  let (st, diags) :=
    tfsdk.SetAttribute (Response.State resp) attrPath
                       (ImportStateRequest.ID req) in
  Response.set_Diagnostics (diag.Append (Response.Diagnostics resp) diags)
    (Response.set_State st resp).

End resource.

(* ================================================================== *)
(** ** ImportState *)

(** [componentResource.ImportState]. *)
Definition ImportState (req : ImportStateRequest.t) (resp : Response.t)
  : Response.t :=
  let idParts := strings.Split (ImportStateRequest.ID req) slash in
  if negb (length idParts =? 2)%nat
     || String.eqb (nth 0 idParts EmptyString) EmptyString
     || String.eqb (nth 1 idParts EmptyString) EmptyString
  then
    Response.set_Diagnostics
      (diag.AddError (Response.Diagnostics resp)
         "Invalid import identifier"
         ("Import identifier must be in the format 'PageId/id'. Got: "
            ++ ImportStateRequest.ID req))
      resp
  else
    let resp := resource.ImportStatePassthroughID (path.Root "id") req resp in
    let (st, diags) :=
      tfsdk.SetAttribute (Response.State resp) (path.Root "page_id")
                         (nth 0 idParts EmptyString) in
    let resp :=
      Response.set_Diagnostics (diag.Append (Response.Diagnostics resp) diags)
        (Response.set_State st resp) in
    let (st, diags) :=
      tfsdk.SetAttribute (Response.State resp) (path.Root "id")
                         (nth 1 idParts EmptyString) in
    Response.set_Diagnostics (diag.Append (Response.Diagnostics resp) diags)
      (Response.set_State st resp).

(* ================================================================== *)
(** ** The API client (imported as [is] in the source, [is_] here) *)

(** Go's [error]: [Error e] is the text of [e.Error()]. *)
Record error : Type := mkError { Error : string }.

Module is_.

(** The request body [is_.Component] built by Create and Update. *)
Record Component : Type := mkComponent
  { Name : option string;
    Description : option string;
    ShowUptime : option bool;
    Grouped : option bool;
    Group : option string;
    GroupId : option string }.

End is_.

Module ComponentGroup.
(** Modelled from the spec: the type of a response's [Group] field is
    declared in the client library, which is not part of the sources; the
    operations read its [Name] and [Id], both pointers to strings. *)
Record t : Type := mk { Name : option string; Id : option string }.
End ComponentGroup.

Module ComponentResponse.
(** Modelled from the spec: the component returned by the client's
    [CreateComponent], [GetComponent] and [UpdateComponent] is declared in
    the client library, which is not part of the sources. It carries the
    fields the operations read, every one a pointer, and the [grouped]
    flag of the remote entity, which no operation reads. *)
Record t : Type := mk
  { ID : option string;
    Name : option string;
    Description : option string;
    ShowUptime : option bool;
    Grouped : option bool;
    Group : ComponentGroup.t }.
End ComponentResponse.

(** A Go result pair [(value, err)]: [Err e] when [err != nil]. *)
Inductive result (A : Type) : Type :=
| Ok (a : A)
| Err (e : error).
Arguments Ok {A} a.
Arguments Err {A} e.

(** The four calls of the client, each indexed by what it returns. *)
Inductive clientE : Type -> Type :=
| CreateComponent (pageId : string) (item : is_.Component)
  : clientE (result ComponentResponse.t)
| GetComponent (pageId id : string)
  : clientE (result ComponentResponse.t)
| UpdateComponent (pageId id : string) (item : is_.Component)
  : clientE (result ComponentResponse.t)
| DeleteComponent (pageId id : string)
  : clientE (option error).

(** An operation is a tree: it returns, or calls the client and goes on
    with the answer. *)
Inductive prog (A : Type) : Type :=
| Ret (a : A)
| Call {X : Type} (e : clientE X) (k : X -> prog A).
Arguments Ret {A} a.
Arguments Call {A X} e k.

Notation "x <- e ;; k" := (Call e (fun x => k))
  (at level 61, e at next level, right associativity).

(** A client answers each call and moves the remote service, whose state is
    [W], on. *)
Definition client (W : Type) : Type := forall X, clientE X -> W -> X * W.

Fixpoint run {W A : Type} (c : client W) (p : prog A) (w : W) : A * W :=
  match p with
  | Ret a => (a, w)
  | Call e k => let (x, w') := c _ e w in run c (k x) w'
  end.

(** The calls an operation makes against a client, in order. *)
Inductive call : Type :=
| Called {X : Type} (e : clientE X).

Fixpoint calls {W A : Type} (c : client W) (p : prog A) (w : W) : list call :=
  match p with
  | Ret _ => []
  | Call e k => let (x, w') := c _ e w in Called e :: calls c (k x) w'
  end.

(* ================================================================== *)
(** ** Create, Read, Update, Delete *)

(** The request body of Create. *)
Definition Create_item (plan : componentResourceModel) : is_.Component :=
  {| is_.Name := types.ValueStringPointer (Name plan);
     is_.Description := types.ValueStringPointer (Description plan);
     is_.ShowUptime := types.ValueBoolPointer (ShowUptime plan);
     is_.Grouped := types.ValueBoolPointer (Grouped plan);
     is_.Group := types.ValueStringPointer (GroupId plan);
     is_.GroupId := types.ValueStringPointer (GroupId plan) |}.

(** Create's mapping of the response body onto the plan. *)
Definition Create_apply (plan : componentResourceModel)
           (component : ComponentResponse.t) : componentResourceModel :=
  let plan := set_ID (types.StringPointerValue (ComponentResponse.ID component)) plan in
  let plan := set_Description
                (types.StringPointerValue (ComponentResponse.Description component)) plan in
  let plan := set_GroupName
                (types.StringPointerValue
                   (ComponentGroup.Name (ComponentResponse.Group component))) plan in
  let plan := set_GroupId
                (types.StringPointerValue
                   (ComponentGroup.Id (ComponentResponse.Group component))) plan in
  plan.

(** The last step of Create, Read and Update: [resp.State.Set] and the
    append of what it reports. *)
Definition State_Set (val : componentResourceModel) (resp : Response.t)
  : Response.t :=
  let (st, diags) := tfsdk.Set_ (Response.State resp) val in
  Response.set_Diagnostics (diag.Append (Response.Diagnostics resp) diags)
    (Response.set_State st resp).

(** [componentResource.Create]. *)
Definition Create (req : CreateRequest.t) (resp : Response.t)
  : prog Response.t :=
  let (plan, diags) := tfsdk.Get (CreateRequest.Plan req) in
  let resp := Response.set_Diagnostics
                (diag.Append (Response.Diagnostics resp) diags) resp in
  if diag.HasError (Response.Diagnostics resp) then Ret resp
  else
    let item := Create_item plan in
    r <- CreateComponent (types.ValueString (PageID plan)) item ;;
    match r with
    | Err err =>
        Ret (Response.set_Diagnostics
               (diag.AddError (Response.Diagnostics resp)
                  "Error creating component"
                  ("Could not create component, unexpected error: "
                     ++ Error err))
               resp)
    | Ok component =>
        let plan := Create_apply plan component in
        Ret (State_Set plan resp)
    end.

(** Read's overwrite of the state with the refreshed component. *)
Definition Read_apply (state : componentResourceModel)
           (component : ComponentResponse.t) : componentResourceModel :=
  let state := set_Name (types.StringPointerValue (ComponentResponse.Name component)) state in
  let state := set_Description
                 (types.StringPointerValue (ComponentResponse.Description component)) state in
  let state := set_ShowUptime
                 (types.BoolPointerValue (ComponentResponse.ShowUptime component)) state in
  let state := set_Grouped
                 (types.BoolValue
                    (not_nil (ComponentGroup.Name (ComponentResponse.Group component)))) state in
  let state := set_GroupName
                 (types.StringPointerValue
                    (ComponentGroup.Name (ComponentResponse.Group component))) state in
  let state := set_GroupId
                 (types.StringPointerValue
                    (ComponentGroup.Id (ComponentResponse.Group component))) state in
  state.

(** [componentResource.Read]. *)
Definition Read (req : ReadRequest.t) (resp : Response.t)
  : prog Response.t :=
  let (state, diags) := tfsdk.Get (ReadRequest.State req) in
  let resp := Response.set_Diagnostics
                (diag.Append (Response.Diagnostics resp) diags) resp in
  if diag.HasError (Response.Diagnostics resp) then Ret resp
  else
    r <- GetComponent (types.ValueString (PageID state))
                      (types.ValueString (ID state)) ;;
    match r with
    | Err err =>
        Ret (Response.set_Diagnostics
               (diag.AddError (Response.Diagnostics resp)
                  "Error Reading Instatus Component"
                  ("Could not read Instatus component ID "
                     ++ types.ValueString (ID state) ++ ": " ++ Error err))
               resp)
    | Ok component =>
        let state := Read_apply state component in
        Ret (State_Set state resp)
    end.

(** The request body of Update. *)
Definition Update_item (plan : componentResourceModel) : is_.Component :=
  {| is_.Name := types.ValueStringPointer (Name plan);
     is_.Description := types.ValueStringPointer (Description plan);
     is_.ShowUptime := types.ValueBoolPointer (ShowUptime plan);
     is_.Grouped := types.ValueBoolPointer (Grouped plan);
     is_.Group := types.ValueStringPointer (GroupName plan);
     is_.GroupId := types.ValueStringPointer (GroupId plan) |}.

(** Update's mapping of the response body onto the plan. *)
Definition Update_apply (plan : componentResourceModel)
           (component : ComponentResponse.t) : componentResourceModel :=
  let plan := set_ID (types.StringPointerValue (ComponentResponse.ID component)) plan in
  let plan := set_GroupName
                (types.StringPointerValue
                   (ComponentGroup.Name (ComponentResponse.Group component))) plan in
  let plan := set_Description
                (types.StringPointerValue (ComponentResponse.Description component)) plan in
  let plan := set_GroupId
                (types.StringPointerValue
                   (ComponentGroup.Id (ComponentResponse.Group component))) plan in
  plan.

(** [componentResource.Update]. *)
Definition Update (req : UpdateRequest.t) (resp : Response.t)
  : prog Response.t :=
  let (plan, diags) := tfsdk.Get (UpdateRequest.Plan req) in
  let resp := Response.set_Diagnostics
                (diag.Append (Response.Diagnostics resp) diags) resp in
  if diag.HasError (Response.Diagnostics resp) then Ret resp
  else
    let item := Update_item plan in
    r <- UpdateComponent (types.ValueString (PageID plan))
                         (types.ValueString (ID plan)) item ;;
    match r with
    | Err err =>
        Ret (Response.set_Diagnostics
               (diag.AddError (Response.Diagnostics resp)
                  "Error Updating Instatus Component"
                  ("Could not update component, unexpected error: "
                     ++ Error err))
               resp)
    | Ok component =>
        let plan := Update_apply plan component in
        Ret (State_Set plan resp)
    end.

(** [componentResource.Delete]. *)
Definition Delete (req : DeleteRequest.t) (resp : Response.t)
  : prog Response.t :=
  let (state, diags) := tfsdk.Get (DeleteRequest.State req) in
  let resp := Response.set_Diagnostics
                (diag.Append (Response.Diagnostics resp) diags) resp in
  if diag.HasError (Response.Diagnostics resp) then Ret resp
  else
    err <- DeleteComponent (types.ValueString (PageID state))
                           (types.ValueString (ID state)) ;;
    match err with
    | Some err =>
        Ret (Response.set_Diagnostics
               (diag.AddError (Response.Diagnostics resp)
                  "Error Deleting Instatus Component"
                  ("Could not delete component, unexpected error: "
                     ++ Error err))
               resp)
    | None => Ret resp
    end.

(* ================================================================== *)
(** ** Clients used to describe the remote side *)

(** The answer to call [e] of a client that answers every component call
    with [r]; a delete reports the error of [r], if any. *)
Definition reply {X : Type} (e : clientE X) (r : result ComponentResponse.t)
  : X :=
  match e in clientE X return X with
  | CreateComponent _ _ => r
  | GetComponent _ _ => r
  | UpdateComponent _ _ _ => r
  | DeleteComponent _ _ =>
      match r with Ok _ => None | Err err => Some err end
  end.

(** The client call that program [p] makes first, with the remote service
    in state [w], is answered [r] by client [c]; false of a program that
    returns without a call. *)
Definition answered {W A : Type} (c : client W) (w : W) (p : prog A)
           (r : result ComponentResponse.t) : Prop :=
  match p with
  | Ret _ => False
  | Call e _ => fst (c _ e w) = reply e r
  end.

(** The client of a remote service that never changes and answers [r]. *)
Definition stub (r : result ComponentResponse.t) : client unit :=
  fun X e w => (reply e r, w).

(** The lifecycle operations under one name. *)
Inductive operation : Type :=
| OpCreate (plan : componentResourceModel)
| OpRead (state : componentResourceModel)
| OpUpdate (plan : componentResourceModel)
| OpDelete (state : componentResourceModel).

Definition perform (o : operation) (resp : Response.t) : prog Response.t :=
  match o with
  | OpCreate plan => Create (CreateRequest.mk plan) resp
  | OpRead state => Read (ReadRequest.mk state) resp
  | OpUpdate plan => Update (UpdateRequest.mk plan) resp
  | OpDelete state => Delete (DeleteRequest.mk state) resp
  end.

(** The response an operation starts from when nothing was reported and no
    state exists yet. *)
Definition emptyResponse : Response.t := Response.mk None [].

(* ================================================================== *)
(** ** Values used in the statements *)

(** The object a state write starts from. *)
Definition objectOf (s : tfsdk.State) : componentResourceModel :=
  match s with Some m => m | None => tfsdk.nullObject end.

(** What an operation reports when the client call fails. *)
Definition failed (resp : Response.t) (summary detail : string) : Response.t :=
  Response.set_Diagnostics
    (diag.AddError (Response.Diagnostics resp) summary detail) resp.

(** The plan of the scenarios: a component "API" of page "pg_1", grouped,
    with group id "grp_9" and group name "Backend". *)
Definition apiPlan : componentResourceModel :=
  mkModel types.StringUnknown (types.StringValue "API")
          (types.StringValue "pg_1") types.StringNull types.BoolNull
          (types.BoolValue true) (types.StringValue "Backend")
          (types.StringValue "grp_9").

(** The same component with another [grouped] flag. *)
Definition withGroupedFlag (flag : option bool) (component : ComponentResponse.t)
  : ComponentResponse.t :=
  ComponentResponse.mk
    (ComponentResponse.ID component) (ComponentResponse.Name component)
    (ComponentResponse.Description component)
    (ComponentResponse.ShowUptime component) flag
    (ComponentResponse.Group component).

(** A remote component in the group "Backend" whose own flag says that it
    is not grouped. *)
Definition backendComponent : ComponentResponse.t :=
  ComponentResponse.mk (Some "cmp_42") (Some "API") (Some "The API")
    (Some true) (Some false)
    (ComponentGroup.mk (Some "Backend") (Some "grp_9")).

(** A remote answer that carries no [id] and no other field. *)
Definition bareComponent : ComponentResponse.t :=
  ComponentResponse.mk None None None None None (ComponentGroup.mk None None).

(** A configuration that sets neither [grouped] nor a group. *)
Definition plainConfig : componentResourceModel :=
  mkModel types.StringNull (types.StringValue "API")
          (types.StringValue "pg_1") types.StringNull types.BoolNull
          types.BoolNull types.StringNull types.StringNull.

(** The summary of the diagnostic a failed client call is reported with. *)
Definition errorSummary (o : operation) : string :=
  match o with
  | OpCreate _ => "Error creating component"
  | OpRead _ => "Error Reading Instatus Component"
  | OpUpdate _ => "Error Updating Instatus Component"
  | OpDelete _ => "Error Deleting Instatus Component"
  end.

(** The text that precedes the error's own text in the detail of that
    diagnostic: fixed for Create, Update and Delete; for Read it names the
    [ID] of the prior state. *)
Definition detailPrefix (o : operation) : string :=
  match o with
  | OpCreate _ => "Could not create component, unexpected error: "
  | OpRead state =>
      "Could not read Instatus component ID "
        ++ types.ValueString (ID state) ++ ": "
  | OpUpdate _ => "Could not update component, unexpected error: "
  | OpDelete _ => "Could not delete component, unexpected error: "
  end.

(** A prior state with the given [ID]. *)
Definition stateOf (id : string) : componentResourceModel :=
  mkModel (types.StringValue id) (types.StringValue "API")
          (types.StringValue "pg_1") types.StringNull types.BoolNull
          (types.BoolValue false) types.StringNull types.StringNull.

(** The diagnostics of a Read whose client call fails with [err]. *)
Definition failedRead (state : componentResourceModel) (err : error)
  : diag.Diagnostics :=
  Response.Diagnostics
    (fst (run (stub (Err err)) (Read (ReadRequest.mk state) emptyResponse) tt)).

(* ================================================================== *)
(** ** Configure, NewComponentResource and Metadata *)

(** A Go call either returns or panics. *)
Inductive outcome (A : Type) : Type :=
| Returns (a : A)
| Panics.
Arguments Returns {A} a.
Arguments Panics {A}.

(** The dynamic value of [req.ProviderData], an [any]: the nil interface, a
    pointer to an [is.Client] (a client [C]; the pointer may be nil), or a
    value of another type. *)
Inductive providerData (C : Type) : Type :=
| NilData
| ClientData (p : option C)
| OtherData.
Arguments NilData {C}.
Arguments ClientData {C} p.
Arguments OtherData {C}.

Module componentResource.
(** [componentResource]: the struct that holds the configured client. *)
Record t (C : Type) : Type := mk { client : option C }.
Arguments mk {C} client.
Arguments client {C} t.
End componentResource.

Module ConfigureRequest.
Record t (C : Type) : Type := mk { ProviderData : providerData C }.
Arguments mk {C} ProviderData.
Arguments ProviderData {C} t.
End ConfigureRequest.

(** [NewComponentResource]: a resource without a client. *)
Definition NewComponentResource {C : Type} : componentResource.t C :=
  componentResource.mk None.

(** [componentResource.Configure]: nil provider data is skipped; otherwise
    the type assertion of [req.ProviderData] to a pointer to [is.Client]
    gives the client or panics. *)
Definition Configure {C : Type} (r : componentResource.t C)
           (req : ConfigureRequest.t C) : outcome (componentResource.t C) :=
  match ConfigureRequest.ProviderData req with
  | NilData => Returns r
  | ClientData p => Returns (componentResource.mk p)
  | OtherData => Panics
  end.

(** Configure called with each request in turn; a panic ends the run. *)
Fixpoint ConfigureAll {C : Type} (r : componentResource.t C)
         (reqs : list (ConfigureRequest.t C))
  : outcome (componentResource.t C) :=
  match reqs with
  | [] => Returns r
  | req :: rest =>
      match Configure r req with
      | Returns r' => ConfigureAll r' rest
      | Panics => Panics
      end
  end.

(** The provider data is of a type other than pointer to [is.Client]. *)
Definition isOther {C : Type} (req : ConfigureRequest.t C) : bool :=
  match ConfigureRequest.ProviderData req with
  | OtherData => true
  | _ => false
  end.

(** The client pointer of the last request that carries one, [p] if none
    does. *)
Fixpoint lastClient {C : Type} (p : option C)
         (reqs : list (ConfigureRequest.t C)) : option C :=
  match reqs with
  | [] => p
  | req :: rest =>
      match ConfigureRequest.ProviderData req with
      | ClientData q => lastClient q rest
      | _ => lastClient p rest
      end
  end.

Module MetadataRequest.
Record t : Type := mk { ProviderTypeName : string }.
End MetadataRequest.

Module MetadataResponse.
Record t : Type := mk { TypeName : string }.
End MetadataResponse.

(** [componentResource.Metadata]. *)
Definition Metadata (req : MetadataRequest.t) (resp : MetadataResponse.t)
  : MetadataResponse.t :=
  MetadataResponse.mk (MetadataRequest.ProviderTypeName req ++ "_component").

(* ================================================================== *)
(** ** The struct tags and the rules of the schema *)

(** The fields of [componentResourceModel] in the order of the struct: the
    [tfsdk] tag and whether the field is a [types.String] or a
    [types.Bool]. *)
Definition modelFields : list (string * schema.Kind) :=
  [ ("id", schema.StringAttribute);
    ("name", schema.StringAttribute);
    ("page_id", schema.StringAttribute);
    ("description", schema.StringAttribute);
    ("show_uptime", schema.BoolAttribute);
    ("grouped", schema.BoolAttribute);
    ("group_name", schema.StringAttribute);
    ("group_id", schema.StringAttribute) ].

Fixpoint lookupField (name : string) (fields : list (string * schema.Kind))
  : option schema.Kind :=
  match fields with
  | [] => None
  | (k, ty) :: rest =>
      if String.eqb k name then Some ty else lookupField name rest
  end.

(** What the framework requires of an attribute: it is required, or
    optional and/or computed, never both; a default needs [Computed]. *)
Definition wellFormed (a : schema.Attribute) : bool :=
  (if schema.Required a
   then negb (schema.Optional a) && negb (schema.Computed a)
   else schema.Optional a || schema.Computed a)
  && match schema.Default a with
     | Some _ => schema.Computed a
     | None => true
     end.

(** The attributes a configuration may set, and those it must. *)
Definition configurable (a : schema.Attribute) : bool :=
  schema.Required a || schema.Optional a.

(** A response that already carries an error. *)
Definition erroredResponse : Response.t :=
  Response.mk (Some apiPlan)
    [diag.NewErrorDiagnostic "Earlier failure" "reported before the call"].

(* ================================================================== *)
(** ** Lemmas on [strings.Split] *)

Section SplitFacts.

Variable sep : ascii.

Lemma Split_not_nil (s : string) : strings.Split s sep <> [].
Proof.
  destruct s as [|c rest]; simpl; [discriminate|].
  destruct (Ascii.eqb c sep); [discriminate|].
  destruct (strings.Split rest sep); discriminate.
Qed.

Lemma Split_length_pos (s : string) : (1 <= length (strings.Split s sep))%nat.
Proof.
  pose proof (Split_not_nil s) as H.
  destruct (strings.Split s sep); [congruence | simpl; lia].
Qed.

Lemma Join_cons (e x : string) (xs : list string) :
  strings.Join (e :: x :: xs) sep = e ++ String sep (strings.Join (x :: xs) sep).
Proof. reflexivity. Qed.

(** Joining the segments with the separator gives the string back. *)
Lemma Join_Split (s : string) : strings.Join (strings.Split s sep) sep = s.
Proof.
  induction s as [|c rest IH]; [reflexivity|].
  simpl strings.Split.
  pose proof (Split_not_nil rest) as Hnil.
  destruct (strings.Split rest sep) as [|seg segs] eqn:E; [congruence|].
  destruct (Ascii.eqb_spec c sep) as [->|Hne].
  - rewrite Join_cons, IH. reflexivity.
  - destruct segs as [|seg' segs'].
    + simpl in IH. subst seg. reflexivity.
    + rewrite Join_cons. rewrite Join_cons in IH.
      rewrite <- IH. reflexivity.
Qed.

Lemma Split_two (s a b : string) :
  strings.Split s sep = [a; b] -> s = a ++ String sep b.
Proof.
  intros H. rewrite <- (Join_Split s) at 1. now rewrite H.
Qed.

(** No segment contains the separator. *)
Lemma Split_lacks (s : string) :
  Forall (fun seg => strings.lacks sep seg = true) (strings.Split s sep).
Proof.
  induction s as [|c rest IH]; simpl.
  - constructor; [reflexivity | constructor].
  - destruct (Ascii.eqb c sep) eqn:Ec.
    + constructor; [reflexivity | exact IH].
    + destruct (strings.Split rest sep) as [|seg segs].
      * constructor; [simpl; now rewrite Ec | constructor].
      * inversion IH as [|? ? Hseg Hsegs]; subst.
        constructor; [simpl; now rewrite Ec, Hseg | exact Hsegs].
Qed.

Lemma Split_app (a b : string) :
  strings.lacks sep a = true ->
  strings.Split (a ++ String sep b) sep = a :: strings.Split b sep.
Proof.
  induction a as [|c a IH]; simpl; intros H.
  - now rewrite Ascii.eqb_refl.
  - apply andb_prop in H as [Hc Ha].
    apply negb_true_iff in Hc. rewrite Hc, (IH Ha). reflexivity.
Qed.

Lemma Split_whole (a : string) :
  strings.lacks sep a = true -> strings.Split a sep = [a].
Proof.
  induction a as [|c a IH]; simpl; intros H; [reflexivity|].
  apply andb_prop in H as [Hc Ha].
  apply negb_true_iff in Hc. rewrite Hc, (IH Ha). reflexivity.
Qed.

(** The strings made of two separator-free parts are exactly those that
    split in two. *)
Lemma Split_concat (a b : string) :
  strings.lacks sep a = true -> strings.lacks sep b = true ->
  strings.Split (a ++ String sep b) sep = [a; b].
Proof.
  intros Ha Hb. now rewrite (Split_app a b Ha), (Split_whole b Hb).
Qed.

End SplitFacts.

Lemma append_length (a b : string) :
  String.length (a ++ b) = (String.length a + String.length b)%nat.
Proof. induction a as [|c a IH]; simpl; [reflexivity | now rewrite IH]. Qed.

Lemma append_empty_r (s : string) : s ++ EmptyString = s.
Proof. induction s as [|c s IH]; simpl; [reflexivity | now rewrite IH]. Qed.

Lemma eqb_empty_false (s : string) :
  s <> EmptyString -> String.eqb s EmptyString = false.
Proof. intros H. now apply String.eqb_neq. Qed.

(* ================================================================== *)
(** ** Lemmas on diagnostics *)

Lemma Equal_eq (a b : diag.Diagnostic) : diag.Equal a b = true -> a = b.
Proof.
  destruct a as [sa ma da], b as [sb mb db]. unfold diag.Equal. simpl.
  intros H. apply andb_prop in H as [H Hd]. apply andb_prop in H as [Hs Hm].
  apply String.eqb_eq in Hd, Hm. subst.
  destruct sa, sb; simpl in Hs; congruence.
Qed.

Lemma Contains_In (diags : diag.Diagnostics) (d : diag.Diagnostic) :
  diag.Contains diags d = true -> In d diags.
Proof.
  unfold diag.Contains. intros H.
  apply existsb_exists in H as [x [Hx He]].
  apply Equal_eq in He. now subst.
Qed.

Lemma AddError_In (diags : diag.Diagnostics) (summary detail : string) :
  In (diag.NewErrorDiagnostic summary detail)
     (diag.AddError diags summary detail).
Proof.
  unfold diag.AddError. simpl.
  destruct (diag.Contains diags _) eqn:E.
  - now apply Contains_In.
  - apply in_or_app. right. now left.
Qed.

Lemma HasError_In (diags : diag.Diagnostics) (d : diag.Diagnostic) :
  In d diags -> diag.severity d = diag.SeverityError ->
  diag.HasError diags = true.
Proof.
  intros Hin Hsev. unfold diag.HasError. apply existsb_exists.
  exists d. split; [exact Hin | now rewrite Hsev].
Qed.

Lemma AddError_HasError (diags : diag.Diagnostics) (summary detail : string) :
  diag.HasError (diag.AddError diags summary detail) = true.
Proof.
  apply (HasError_In _ _ (AddError_In diags summary detail)). reflexivity.
Qed.

(** On diagnostics without that entry, [AddError] appends it. *)
Lemma AddError_fresh (diags : diag.Diagnostics) (summary detail : string) :
  diag.Contains diags (diag.NewErrorDiagnostic summary detail) = false ->
  diag.AddError diags summary detail
  = (diags ++ [diag.NewErrorDiagnostic summary detail])%list.
Proof. unfold diag.AddError. simpl. now intros ->. Qed.

(* ================================================================== *)
(** ** Lemmas on [ImportState] *)

(** A malformed identifier: the error is reported and nothing else done. *)
Lemma ImportState_reject (raw : string) (resp : Response.t) :
  length (strings.Split raw slash) <> 2%nat
  \/ In EmptyString (strings.Split raw slash) ->
  ImportState (ImportStateRequest.mk raw) resp
  = Response.set_Diagnostics
      (diag.AddError (Response.Diagnostics resp)
         "Invalid import identifier"
         ("Import identifier must be in the format 'PageId/id'. Got: " ++ raw))
      resp.
Proof.
  intros H. unfold ImportState. simpl ImportStateRequest.ID.
  destruct (length (strings.Split raw slash) =? 2)%nat eqn:El; simpl.
  - apply Nat.eqb_eq in El.
    destruct H as [H|H]; [congruence|].
    destruct (strings.Split raw slash) as [|a [|b [|? ?]]]; try discriminate.
    simpl in H. destruct H as [->|[->|[]]]; simpl.
    + reflexivity.
    + now rewrite orb_true_r.
  - reflexivity.
Qed.

(** A well-formed identifier: the passthrough writes the raw identifier
    into [id], then [page_id] and [id] receive the two segments. *)
Lemma ImportState_accept (raw P I : string) (resp : Response.t) :
  strings.Split raw slash = [P; I] ->
  P <> EmptyString -> I <> EmptyString ->
  ImportState (ImportStateRequest.mk raw) resp
  = Response.mk
      (Some (set_ID (types.StringValue I)
               (set_PageID (types.StringValue P)
                  (set_ID (types.StringValue raw)
                     (objectOf (Response.State resp))))))
      (Response.Diagnostics resp).
Proof.
  intros Hs HP HI. unfold ImportState. simpl ImportStateRequest.ID.
  rewrite Hs. simpl.
  rewrite (eqb_empty_false P HP), (eqb_empty_false I HI). simpl.
  destruct resp as [[m|] diags]; reflexivity.
Qed.

(** An import that reports no error had a well-formed identifier. *)
Lemma ImportState_no_error (raw : string) (resp : Response.t) :
  diag.HasError
    (Response.Diagnostics (ImportState (ImportStateRequest.mk raw) resp))
  = false ->
  exists P I, strings.Split raw slash = [P; I]
              /\ P <> EmptyString /\ I <> EmptyString.
Proof.
  intros H.
  destruct (Nat.eq_dec (length (strings.Split raw slash)) 2) as [El|El].
  - destruct (strings.Split raw slash) as [|P [|I [|? ?]]] eqn:Es;
      try discriminate.
    exists P, I. split; [reflexivity|].
    destruct (string_dec P EmptyString) as [HP|HP];
      [|destruct (string_dec I EmptyString) as [HI|HI]]; [| |now split].
    + rewrite ImportState_reject in H
        by (right; rewrite Es, HP; now left).
      simpl in H. now rewrite AddError_HasError in H.
    + rewrite ImportState_reject in H
        by (right; rewrite Es, HI; right; now left).
      simpl in H. now rewrite AddError_HasError in H.
  - rewrite ImportState_reject in H by now left.
    simpl in H. now rewrite AddError_HasError in H.
Qed.

(* ================================================================== *)
(** ** Properties of [ImportState] *)

(** C1. Every import identifier that splits on '/' into exactly two
    non-empty segments [P] and [I] is imported without a diagnostic, and
    the resulting state holds [P] in [page_id] and [I] in [id]. *)
Theorem import_writes_both_segments (raw P I : string) (resp : Response.t) :
  strings.Split raw slash = [P; I] ->
  P <> EmptyString -> I <> EmptyString ->
  let resp' := ImportState (ImportStateRequest.mk raw) resp in
  Response.Diagnostics resp' = Response.Diagnostics resp
  /\ exists m, Response.State resp' = Some m
               /\ PageID m = types.StringValue P
               /\ ID m = types.StringValue I.
Proof.
  intros Hs HP HI resp'. subst resp'.
  rewrite (ImportState_accept raw P I resp Hs HP HI). simpl.
  split; [reflexivity|]. eexists. split; [reflexivity|]. now split.
Qed.

Lemma import_writes_both_segments_witness :
  let resp' := ImportState (ImportStateRequest.mk "pg_1/cmp_42") emptyResponse in
  Response.Diagnostics resp' = []
  /\ exists m, Response.State resp' = Some m
               /\ PageID m = types.StringValue "pg_1"
               /\ ID m = types.StringValue "cmp_42".
Proof.
  apply (import_writes_both_segments "pg_1/cmp_42" "pg_1" "cmp_42" emptyResponse);
    [reflexivity | discriminate | discriminate].
Defined.

(** The same for identifiers written as [P ++ "/" ++ I] with no '/' in
    either part. *)
Lemma import_of_concat (P I : string) (resp : Response.t) :
  strings.lacks slash P = true -> strings.lacks slash I = true ->
  P <> EmptyString -> I <> EmptyString ->
  ImportState (ImportStateRequest.mk (P ++ "/" ++ I)) resp
  = Response.mk
      (Some (set_ID (types.StringValue I)
               (set_PageID (types.StringValue P)
                  (set_ID (types.StringValue (P ++ "/" ++ I))
                     (objectOf (Response.State resp))))))
      (Response.Diagnostics resp).
Proof.
  intros HlP HlI HP HI.
  apply ImportState_accept; [|exact HP|exact HI].
  exact (Split_concat slash P I HlP HlI).
Qed.

(** C2. Every import identifier whose split on '/' has a segment count
    other than two, or has an empty segment, is rejected: the response has
    an error diagnostic "Invalid import identifier" whose detail ends with
    the raw identifier, and the state is the one the operation started
    from. *)
Theorem import_rejects_malformed (raw : string) (resp : Response.t) :
  length (strings.Split raw slash) <> 2%nat
  \/ In EmptyString (strings.Split raw slash) ->
  let resp' := ImportState (ImportStateRequest.mk raw) resp in
  Response.State resp' = Response.State resp
  /\ diag.HasError (Response.Diagnostics resp') = true
  /\ exists d, In d (Response.Diagnostics resp')
               /\ diag.severity d = diag.SeverityError
               /\ diag.Summary d = "Invalid import identifier"
               /\ diag.Detail d
                  = "Import identifier must be in the format 'PageId/id'. Got: "
                      ++ raw
               /\ strings.Contains (diag.Detail d) raw.
Proof.
  intros H resp'. subst resp'. rewrite (ImportState_reject raw resp H). simpl.
  split; [reflexivity|]. split; [apply AddError_HasError|].
  eexists. split; [apply AddError_In|]. simpl.
  repeat split.
  exists "Import identifier must be in the format 'PageId/id'. Got: ", EmptyString.
  now rewrite append_empty_r.
Qed.

Lemma import_rejects_malformed_witness :
  let resp' := ImportState (ImportStateRequest.mk "cmp_42") emptyResponse in
  Response.State resp' = None
  /\ diag.HasError (Response.Diagnostics resp') = true
  /\ exists d, In d (Response.Diagnostics resp')
               /\ diag.severity d = diag.SeverityError
               /\ diag.Summary d = "Invalid import identifier"
               /\ diag.Detail d
                  = "Import identifier must be in the format 'PageId/id'. Got: "
                      ++ "cmp_42"
               /\ strings.Contains (diag.Detail d) "cmp_42".
Proof.
  apply (import_rejects_malformed "cmp_42" emptyResponse).
  left. simpl. lia.
Defined.

(** C10. Whenever the import reports no error, the final [id] attribute is
    the second '/'-delimited segment and not the raw identifier, which the
    passthrough had written into [id] before it was overwritten; [page_id],
    '/' and [id] concatenated give the raw identifier back. *)
Theorem import_id_is_second_segment (raw : string) (resp : Response.t) :
  diag.HasError
    (Response.Diagnostics (ImportState (ImportStateRequest.mk raw) resp))
  = false ->
  exists m P I,
    Response.State (ImportState (ImportStateRequest.mk raw) resp) = Some m
    /\ strings.Split raw slash = [P; I]
    /\ PageID m = types.StringValue P
    /\ ID m = types.StringValue I
    /\ ID m <> types.StringValue raw
    /\ ID (objectOf
             (Response.State
                (resource.ImportStatePassthroughID
                   (path.Root "id") (ImportStateRequest.mk raw) resp)))
       = types.StringValue raw
    /\ types.ValueString (PageID m) ++ "/" ++ types.ValueString (ID m) = raw.
Proof.
  intros H.
  destruct (ImportState_no_error raw resp H) as (P & I & Hs & HP & HI).
  rewrite (ImportState_accept raw P I resp Hs HP HI).
  pose proof (Split_two slash raw P I Hs) as Hraw.
  eexists. exists P, I. split; [reflexivity|]. simpl.
  split; [exact Hs|]. split; [reflexivity|]. split; [reflexivity|].
  split; [|split].
  - intros Heq. injection Heq as Heq.
    apply (f_equal String.length) in Hraw.
    rewrite append_length in Hraw. simpl in Hraw. rewrite Heq in Hraw. lia.
  - destruct resp as [[m|] diags]; reflexivity.
  - symmetry. exact Hraw.
Qed.

Lemma import_id_is_second_segment_witness :
  exists m P I,
    Response.State
      (ImportState (ImportStateRequest.mk "pg_1/cmp_42") emptyResponse) = Some m
    /\ strings.Split "pg_1/cmp_42" slash = [P; I]
    /\ PageID m = types.StringValue P
    /\ ID m = types.StringValue I
    /\ ID m <> types.StringValue "pg_1/cmp_42"
    /\ ID (objectOf
             (Response.State
                (resource.ImportStatePassthroughID
                   (path.Root "id") (ImportStateRequest.mk "pg_1/cmp_42")
                   emptyResponse)))
       = types.StringValue "pg_1/cmp_42"
    /\ types.ValueString (PageID m) ++ "/" ++ types.ValueString (ID m)
       = "pg_1/cmp_42".
Proof.
  apply (import_id_is_second_segment "pg_1/cmp_42" emptyResponse).
  reflexivity.
Defined.

(* ================================================================== *)
(** ** Lemmas on running Create, Read, Update and Delete *)

Section Runs.

Context {W : Type} (c : client W) (w : W).
Variable resp : Response.t.

(** The steps shared by the lemmas below: the early return is excluded by
    the answered call, whose answer then decides the branch. *)
Ltac answer_with H :=
  simpl in H |- *;
  destruct (diag.HasError (Response.Diagnostics resp));
  simpl in H |- *; [contradiction|];
  match goal with
  | |- context [c ?X ?e w] => destruct (c X e w) as [r w']
  end;
  simpl in H; subst; reflexivity.

Lemma Create_calls (plan : componentResourceModel) :
  diag.HasError (Response.Diagnostics resp) = false ->
  calls c (Create (CreateRequest.mk plan) resp) w
  = [Called (CreateComponent (types.ValueString (PageID plan))
                             (Create_item plan))].
Proof.
  intros no_error. unfold Create. simpl. rewrite no_error. simpl.
  destruct (c _ _ w) as [[component|err] w']; reflexivity.
Qed.

Lemma Update_calls (plan : componentResourceModel) :
  diag.HasError (Response.Diagnostics resp) = false ->
  calls c (Update (UpdateRequest.mk plan) resp) w
  = [Called (UpdateComponent (types.ValueString (PageID plan))
                             (types.ValueString (ID plan))
                             (Update_item plan))].
Proof.
  intros no_error. unfold Update. simpl. rewrite no_error. simpl.
  destruct (c _ _ w) as [[component|err] w']; reflexivity.
Qed.

(** An operation whose call is answered started without an error. *)
Lemma answered_no_error (o : operation) (r : result ComponentResponse.t) :
  answered c w (perform o resp) r ->
  diag.HasError (Response.Diagnostics resp) = false.
Proof.
  destruct o; simpl; unfold Create, Read, Update, Delete; simpl;
    destruct (diag.HasError (Response.Diagnostics resp)); simpl;
    intros H; first [contradiction | reflexivity].
Qed.

Lemma Create_ok (plan : componentResourceModel)
      (component : ComponentResponse.t) :
  answered c w (Create (CreateRequest.mk plan) resp) (Ok component) ->
  fst (run c (Create (CreateRequest.mk plan) resp) w)
  = Response.mk (Some (Create_apply plan component))
                (Response.Diagnostics resp).
Proof. unfold Create. intros H. answer_with H. Qed.

Lemma Read_ok (state : componentResourceModel)
      (component : ComponentResponse.t) :
  answered c w (Read (ReadRequest.mk state) resp) (Ok component) ->
  fst (run c (Read (ReadRequest.mk state) resp) w)
  = Response.mk (Some (Read_apply state component))
                (Response.Diagnostics resp).
Proof. unfold Read. intros H. answer_with H. Qed.

Lemma Update_ok (plan : componentResourceModel)
      (component : ComponentResponse.t) :
  answered c w (Update (UpdateRequest.mk plan) resp) (Ok component) ->
  fst (run c (Update (UpdateRequest.mk plan) resp) w)
  = Response.mk (Some (Update_apply plan component))
                (Response.Diagnostics resp).
Proof. unfold Update. intros H. answer_with H. Qed.

Lemma Create_err (plan : componentResourceModel) (err : error) :
  answered c w (Create (CreateRequest.mk plan) resp) (Err err) ->
  fst (run c (Create (CreateRequest.mk plan) resp) w)
  = failed resp "Error creating component"
           ("Could not create component, unexpected error: " ++ Error err).
Proof. unfold Create. intros H. answer_with H. Qed.

Lemma Read_err (state : componentResourceModel) (err : error) :
  answered c w (Read (ReadRequest.mk state) resp) (Err err) ->
  fst (run c (Read (ReadRequest.mk state) resp) w)
  = failed resp "Error Reading Instatus Component"
           ("Could not read Instatus component ID "
              ++ types.ValueString (ID state) ++ ": " ++ Error err).
Proof. unfold Read. intros H. answer_with H. Qed.

Lemma Update_err (plan : componentResourceModel) (err : error) :
  answered c w (Update (UpdateRequest.mk plan) resp) (Err err) ->
  fst (run c (Update (UpdateRequest.mk plan) resp) w)
  = failed resp "Error Updating Instatus Component"
           ("Could not update component, unexpected error: " ++ Error err).
Proof. unfold Update. intros H. answer_with H. Qed.

Lemma Delete_err (state : componentResourceModel) (err : error) :
  answered c w (Delete (DeleteRequest.mk state) resp) (Err err) ->
  fst (run c (Delete (DeleteRequest.mk state) resp) w)
  = failed resp "Error Deleting Instatus Component"
           ("Could not delete component, unexpected error: " ++ Error err).
Proof. unfold Delete. intros H. answer_with H. Qed.

End Runs.

Lemma append_assoc (a b d : string) : (a ++ b) ++ d = a ++ b ++ d.
Proof. induction a as [|x a IH]; simpl; [reflexivity | now rewrite IH]. Qed.

(* ================================================================== *)
(** ** Properties of the request bodies *)

(** C3. Create sends exactly one request, whose [Group] and [GroupId] both
    come from the plan's [GroupId]; Update sends exactly one request, whose
    [Group] comes from the plan's [GroupName]; on some plans the two [Group]
    values differ. *)
Theorem group_field_sources {W : Type} (c : client W) (w : W)
        (resp : Response.t) (plan : componentResourceModel) :
  diag.HasError (Response.Diagnostics resp) = false ->
  (exists item,
      calls c (Create (CreateRequest.mk plan) resp) w
      = [Called (CreateComponent (types.ValueString (PageID plan)) item)]
      /\ is_.Group item = types.ValueStringPointer (GroupId plan)
      /\ is_.GroupId item = types.ValueStringPointer (GroupId plan))
  /\ (exists item,
         calls c (Update (UpdateRequest.mk plan) resp) w
         = [Called (UpdateComponent (types.ValueString (PageID plan))
                                    (types.ValueString (ID plan)) item)]
         /\ is_.Group item = types.ValueStringPointer (GroupName plan))
  /\ (exists plan',
         is_.Group (Create_item plan') <> is_.Group (Update_item plan')).
Proof.
  intros Hne. split; [|split].
  - exists (Create_item plan). split; [now apply Create_calls|]. now split.
  - exists (Update_item plan). split; [now apply Update_calls|]. reflexivity.
  - exists apiPlan. discriminate.
Qed.

Lemma group_field_sources_witness :
  (exists item,
      calls (stub (Err (mkError "down")))
            (Create (CreateRequest.mk apiPlan) emptyResponse) tt
      = [Called (CreateComponent "pg_1" item)]
      /\ is_.Group item = Some "grp_9"
      /\ is_.GroupId item = Some "grp_9")
  /\ (exists item,
         calls (stub (Err (mkError "down")))
               (Update (UpdateRequest.mk apiPlan) emptyResponse) tt
         = [Called (UpdateComponent "pg_1" EmptyString item)]
         /\ is_.Group item = Some "Backend")
  /\ (exists plan',
         is_.Group (Create_item plan') <> is_.Group (Update_item plan')).
Proof.
  apply (group_field_sources (stub (Err (mkError "down"))) tt
                             emptyResponse apiPlan).
  reflexivity.
Defined.

(* ================================================================== *)
(** ** Properties of the response mappings *)

(** C4. When the client returns a component, Read stores a state whose
    [Grouped] is the known value [true] exactly when the component's group
    name is present, and the known value [false] otherwise, whatever
    [grouped] flag the component carries. *)
Theorem read_derives_grouped {W : Type} (c : client W) (w : W)
        (resp : Response.t) (state : componentResourceModel)
        (component : ComponentResponse.t) :
  answered c w (Read (ReadRequest.mk state) resp) (Ok component) ->
  exists m,
    Response.State (fst (run c (Read (ReadRequest.mk state) resp) w)) = Some m
    /\ Grouped m
       = types.BoolValue
           (not_nil (ComponentGroup.Name (ComponentResponse.Group component)))
    /\ (Grouped m = types.BoolValue true
        <-> ComponentGroup.Name (ComponentResponse.Group component) <> None)
    /\ forall flag,
        Read_apply state (withGroupedFlag flag component) = m.
Proof.
  intros Hr. rewrite (Read_ok c w resp state component Hr). simpl.
  eexists. split; [reflexivity|]. simpl. split; [reflexivity|]. split.
  - destruct (ComponentGroup.Name (ComponentResponse.Group component)); simpl;
      split; intros H; congruence.
  - intros flag. reflexivity.
Qed.

Lemma read_derives_grouped_witness :
  exists m,
    Response.State
      (fst (run (stub (Ok backendComponent))
                (Read (ReadRequest.mk apiPlan) emptyResponse) tt)) = Some m
    /\ Grouped m = types.BoolValue true
    /\ (Grouped m = types.BoolValue true <-> Some "Backend" <> None)
    /\ forall flag,
        Read_apply apiPlan (withGroupedFlag flag backendComponent) = m.
Proof.
  apply (read_derives_grouped (stub (Ok backendComponent)) tt emptyResponse
                              apiPlan backendComponent).
  reflexivity.
Defined.

(** C5. When the client returns a component, Read stores the prior state
    with [Name], [Description], [ShowUptime], [Grouped], [GroupName] and
    [GroupId] overwritten, so [ID] and [PageID] are those of the prior state;
    Create and Update store the plan with [ID], [Description], [GroupName]
    and [GroupId] overwritten, so [Name], [PageID], [ShowUptime] and
    [Grouped] are those of the plan. *)
Theorem response_mappings_frame {W : Type} (c : client W) (w : W)
        (resp : Response.t) (model : componentResourceModel)
        (component : ComponentResponse.t) :
  answered c w (Read (ReadRequest.mk model) resp) (Ok component) ->
  answered c w (Create (CreateRequest.mk model) resp) (Ok component) ->
  answered c w (Update (UpdateRequest.mk model) resp) (Ok component) ->
  let group := ComponentResponse.Group component in
  Response.State (fst (run c (Read (ReadRequest.mk model) resp) w))
  = Some (mkModel
            (ID model)
            (types.StringPointerValue (ComponentResponse.Name component))
            (PageID model)
            (types.StringPointerValue (ComponentResponse.Description component))
            (types.BoolPointerValue (ComponentResponse.ShowUptime component))
            (types.BoolValue (not_nil (ComponentGroup.Name group)))
            (types.StringPointerValue (ComponentGroup.Name group))
            (types.StringPointerValue (ComponentGroup.Id group)))
  /\ Response.State (fst (run c (Create (CreateRequest.mk model) resp) w))
     = Some (mkModel
               (types.StringPointerValue (ComponentResponse.ID component))
               (Name model)
               (PageID model)
               (types.StringPointerValue (ComponentResponse.Description component))
               (ShowUptime model)
               (Grouped model)
               (types.StringPointerValue (ComponentGroup.Name group))
               (types.StringPointerValue (ComponentGroup.Id group)))
  /\ Response.State (fst (run c (Update (UpdateRequest.mk model) resp) w))
     = Some (mkModel
               (types.StringPointerValue (ComponentResponse.ID component))
               (Name model)
               (PageID model)
               (types.StringPointerValue (ComponentResponse.Description component))
               (ShowUptime model)
               (Grouped model)
               (types.StringPointerValue (ComponentGroup.Name group))
               (types.StringPointerValue (ComponentGroup.Id group))).
Proof.
  intros Hread Hcreate Hupdate group.
  rewrite (Read_ok c w resp model component Hread).
  rewrite (Create_ok c w resp model component Hcreate).
  rewrite (Update_ok c w resp model component Hupdate).
  repeat split.
Qed.

Lemma response_mappings_frame_witness :
  Response.State
    (fst (run (stub (Ok backendComponent))
              (Read (ReadRequest.mk apiPlan) emptyResponse) tt))
  = Some (mkModel types.StringUnknown (types.StringValue "API")
            (types.StringValue "pg_1") (types.StringValue "The API")
            (types.BoolValue true) (types.BoolValue true)
            (types.StringValue "Backend") (types.StringValue "grp_9"))
  /\ Response.State
       (fst (run (stub (Ok backendComponent))
                 (Create (CreateRequest.mk apiPlan) emptyResponse) tt))
     = Some (mkModel (types.StringValue "cmp_42") (types.StringValue "API")
               (types.StringValue "pg_1") (types.StringValue "The API")
               types.BoolNull (types.BoolValue true)
               (types.StringValue "Backend") (types.StringValue "grp_9"))
  /\ Response.State
       (fst (run (stub (Ok backendComponent))
                 (Update (UpdateRequest.mk apiPlan) emptyResponse) tt))
     = Some (mkModel (types.StringValue "cmp_42") (types.StringValue "API")
               (types.StringValue "pg_1") (types.StringValue "The API")
               types.BoolNull (types.BoolValue true)
               (types.StringValue "Backend") (types.StringValue "grp_9")).
Proof.
  apply (response_mappings_frame (stub (Ok backendComponent)) tt emptyResponse
                                 apiPlan backendComponent);
    reflexivity.
Defined.

(** Create accepts an answer without [id]: no diagnostic is reported and the
    stored [ID] is null. *)
Lemma create_id_can_be_null :
  let resp' := fst (run (stub (Ok bareComponent))
                        (Create (CreateRequest.mk apiPlan) emptyResponse) tt) in
  answered (stub (Ok bareComponent)) tt
           (Create (CreateRequest.mk apiPlan) emptyResponse) (Ok bareComponent)
  /\ Response.Diagnostics resp' = []
  /\ exists m, Response.State resp' = Some m /\ ID m = types.StringNull.
Proof.
  simpl. split; [reflexivity|]. split; [reflexivity|].
  eexists. split; reflexivity.
Qed.

(** C6 (amended). When the client returns a component, Create reports
    nothing and stores a state whose [ID] is known exactly when the answer
    carries an [id]; each of [id], [description], group name and group id
    that the answer omits is stored as null. *)
Theorem create_maps_omitted_to_null {W : Type} (c : client W) (w : W)
        (resp : Response.t) (plan : componentResourceModel)
        (component : ComponentResponse.t) :
  answered c w (Create (CreateRequest.mk plan) resp) (Ok component) ->
  let resp' := fst (run c (Create (CreateRequest.mk plan) resp) w) in
  let group := ComponentResponse.Group component in
  Response.Diagnostics resp' = Response.Diagnostics resp
  /\ exists m,
      Response.State resp' = Some m
      /\ (ID m <> types.StringNull <-> ComponentResponse.ID component <> None)
      /\ (forall v, ComponentResponse.ID component = Some v ->
                    ID m = types.StringValue v)
      /\ (ComponentResponse.ID component = None -> ID m = types.StringNull)
      /\ (ComponentResponse.Description component = None ->
          Description m = types.StringNull)
      /\ (ComponentGroup.Name group = None -> GroupName m = types.StringNull)
      /\ (ComponentGroup.Id group = None -> GroupId m = types.StringNull).
Proof.
  intros Hr resp' group. subst resp' group.
  rewrite (Create_ok c w resp plan component Hr). simpl.
  split; [reflexivity|]. eexists. split; [reflexivity|]. simpl.
  split; [|split; [|split; [|split; [|split]]]].
  - destruct (ComponentResponse.ID component); simpl; split; congruence.
  - now intros v ->.
  - now intros ->.
  - now intros ->.
  - now intros ->.
  - now intros ->.
Qed.

Lemma create_maps_omitted_to_null_witness :
  let resp' := fst (run (stub (Ok backendComponent))
                        (Create (CreateRequest.mk apiPlan) emptyResponse) tt) in
  let group := ComponentResponse.Group backendComponent in
  Response.Diagnostics resp' = []
  /\ exists m,
      Response.State resp' = Some m
      /\ (ID m <> types.StringNull
          <-> ComponentResponse.ID backendComponent <> None)
      /\ (forall v, ComponentResponse.ID backendComponent = Some v ->
                    ID m = types.StringValue v)
      /\ (ComponentResponse.ID backendComponent = None ->
          ID m = types.StringNull)
      /\ (ComponentResponse.Description backendComponent = None ->
          Description m = types.StringNull)
      /\ (ComponentGroup.Name group = None -> GroupName m = types.StringNull)
      /\ (ComponentGroup.Id group = None -> GroupId m = types.StringNull).
Proof.
  apply (create_maps_omitted_to_null (stub (Ok backendComponent)) tt
           emptyResponse apiPlan backendComponent).
  reflexivity.
Defined.

(** C7. A configuration that leaves [grouped] null is planned with
    [grouped] false; and whatever the client answers, Create and Update
    either leave the state as it was or store one whose [Grouped] is the
    plan's, so a planned false is never stored as true. *)
Theorem grouped_default_and_stable {W : Type} (c : client W) (w : W)
        (resp : Response.t) (config plan : componentResourceModel) :
  Grouped config = types.BoolNull ->
  Grouped (tfsdk.applyDefaults config) = types.BoolValue false
  /\ (let resp' := fst (run c (Create (CreateRequest.mk plan) resp) w) in
      Response.State resp' = Response.State resp
      \/ exists m, Response.State resp' = Some m /\ Grouped m = Grouped plan)
  /\ (let resp' := fst (run c (Update (UpdateRequest.mk plan) resp) w) in
      Response.State resp' = Response.State resp
      \/ exists m, Response.State resp' = Some m /\ Grouped m = Grouped plan).
Proof.
  intros Hnull. split; [|split].
  - unfold tfsdk.applyDefaults. simpl. now rewrite Hnull.
  - unfold Create. simpl.
    destruct (diag.HasError (Response.Diagnostics resp)); [now left|]. simpl.
    destruct (c _ _ w) as [[component|err] w']; simpl.
    + right. eexists. split; reflexivity.
    + now left.
  - unfold Update. simpl.
    destruct (diag.HasError (Response.Diagnostics resp)); [now left|]. simpl.
    destruct (c _ _ w) as [[component|err] w']; simpl.
    + right. eexists. split; reflexivity.
    + now left.
Qed.

Lemma grouped_default_and_stable_witness :
  Grouped (tfsdk.applyDefaults plainConfig) = types.BoolValue false
  /\ (let resp' :=
        fst (run (stub (Ok backendComponent))
                 (Create (CreateRequest.mk (tfsdk.applyDefaults plainConfig))
                         emptyResponse) tt) in
      Response.State resp' = Response.State emptyResponse
      \/ exists m, Response.State resp' = Some m
                   /\ Grouped m = types.BoolValue false)
  /\ (let resp' :=
        fst (run (stub (Ok backendComponent))
                 (Update (UpdateRequest.mk (tfsdk.applyDefaults plainConfig))
                         emptyResponse) tt) in
      Response.State resp' = Response.State emptyResponse
      \/ exists m, Response.State resp' = Some m
                   /\ Grouped m = types.BoolValue false).
Proof.
  apply (grouped_default_and_stable (stub (Ok backendComponent)) tt
           emptyResponse plainConfig (tfsdk.applyDefaults plainConfig)).
  reflexivity.
Defined.

(** C8. When the client answers Create and the following Read of the
    created state with the same remote component, the state Read stores has
    the [GroupName], [GroupId] and [Description] of the state Create
    stored. *)
Theorem create_then_read_agree {W : Type} (c : client W) (w : W)
        (resp resp2 : Response.t) (plan created : componentResourceModel)
        (component : ComponentResponse.t) :
  let after := run c (Create (CreateRequest.mk plan) resp) w in
  answered c w (Create (CreateRequest.mk plan) resp) (Ok component) ->
  Response.State (fst after) = Some created ->
  answered c (snd after) (Read (ReadRequest.mk created) resp2)
           (Ok component) ->
  exists refreshed,
    Response.State
      (fst (run c (Read (ReadRequest.mk created) resp2) (snd after)))
    = Some refreshed
    /\ GroupName refreshed = GroupName created
    /\ GroupId refreshed = GroupId created
    /\ Description refreshed = Description created.
Proof.
  intros after Hc Hs Hr.
  rewrite (Read_ok c _ resp2 created component Hr). simpl.
  subst after. rewrite (Create_ok c w resp plan component Hc) in Hs.
  simpl in Hs. injection Hs as <-.
  eexists. split; [reflexivity|]. now repeat split.
Qed.

Lemma create_then_read_agree_witness :
  exists refreshed,
    Response.State
      (fst (run (stub (Ok backendComponent))
                (Read (ReadRequest.mk (Create_apply apiPlan backendComponent))
                      emptyResponse)
                (snd (run (stub (Ok backendComponent))
                          (Create (CreateRequest.mk apiPlan) emptyResponse)
                          tt))))
    = Some refreshed
    /\ GroupName refreshed = types.StringValue "Backend"
    /\ GroupId refreshed = types.StringValue "grp_9"
    /\ Description refreshed = types.StringValue "The API".
Proof.
  apply (create_then_read_agree (stub (Ok backendComponent)) tt
           emptyResponse emptyResponse apiPlan
           (Create_apply apiPlan backendComponent) backendComponent);
    reflexivity.
Defined.

(* ================================================================== *)
(** ** Properties of the failure paths *)

(** The detail of a failed Read is not a fixed prefix followed by the
    error's text: two prior states with different ids and the same error
    give details that differ before the error's text. *)
Lemma read_error_prefix_not_fixed :
  failedRead (stateOf "cmp_1") (mkError "timeout")
  = [diag.NewErrorDiagnostic "Error Reading Instatus Component"
       "Could not read Instatus component ID cmp_1: timeout"]
  /\ failedRead (stateOf "cmp_2") (mkError "timeout")
     = [diag.NewErrorDiagnostic "Error Reading Instatus Component"
          "Could not read Instatus component ID cmp_2: timeout"]
  /\ ~ (exists prefix : string,
           forall (state : componentResourceModel) (err : error),
             failedRead state err
             = [diag.NewErrorDiagnostic "Error Reading Instatus Component"
                  (prefix ++ Error err)]).
Proof.
  split; [reflexivity|]. split; [reflexivity|].
  intros [prefix H].
  pose proof (H (stateOf "cmp_1") (mkError "timeout")) as H1.
  pose proof (H (stateOf "cmp_2") (mkError "timeout")) as H2.
  change (failedRead (stateOf "cmp_1") (mkError "timeout"))
    with [diag.NewErrorDiagnostic "Error Reading Instatus Component"
            "Could not read Instatus component ID cmp_1: timeout"] in H1.
  change (failedRead (stateOf "cmp_2") (mkError "timeout"))
    with [diag.NewErrorDiagnostic "Error Reading Instatus Component"
            "Could not read Instatus component ID cmp_2: timeout"] in H2.
  injection H1 as H1. injection H2 as H2.
  rewrite <- H1 in H2. discriminate H2.
Qed.

(** C9 (amended). When the client call of Create, Read, Update or Delete
    returns an error, the operation leaves the state of the response as it
    was and appends one error diagnostic with the summary of the operation,
    whose detail is the operation's prefix (for Read: a fixed text, the [ID]
    of the prior state and ": ") followed by the error's text. *)
Theorem failure_is_reported_without_state {W : Type} (c : client W) (w : W)
        (resp : Response.t) (o : operation) (err : error) :
  answered c w (perform o resp) (Err err) ->
  let resp' := fst (run c (perform o resp) w) in
  let d := diag.NewErrorDiagnostic (errorSummary o)
                                   (detailPrefix o ++ Error err) in
  Response.State resp' = Response.State resp
  /\ diag.HasError (Response.Diagnostics resp') = true
  /\ Response.Diagnostics resp' = (Response.Diagnostics resp ++ [d])%list.
Proof.
  intros Hr resp' d.
  pose proof (answered_no_error c w resp o _ Hr) as Hne.
  assert (Hresp : resp' = failed resp (errorSummary o)
                                 (detailPrefix o ++ Error err)).
  { subst resp'. destruct o as [plan|state|plan|state]; simpl perform in *.
    - now apply Create_err.
    - rewrite (Read_err c w resp state err Hr). simpl.
      now rewrite !append_assoc.
    - now apply Update_err.
    - now apply Delete_err. }
  rewrite Hresp. unfold failed. simpl.
  split; [reflexivity|]. split; [apply AddError_HasError|].
  apply AddError_fresh.
  destruct (diag.Contains (Response.Diagnostics resp) _) eqn:E; [|reflexivity].
  apply Contains_In in E.
  rewrite (HasError_In _ _ E) in Hne; [discriminate | reflexivity].
Qed.

Lemma failure_is_reported_without_state_witness :
  let resp' := fst (run (stub (Err (mkError "timeout")))
                        (perform (OpRead (stateOf "cmp_1")) emptyResponse) tt) in
  let d := diag.NewErrorDiagnostic
             "Error Reading Instatus Component"
             ("Could not read Instatus component ID cmp_1: " ++ "timeout") in
  Response.State resp' = None
  /\ diag.HasError (Response.Diagnostics resp') = true
  /\ Response.Diagnostics resp' = [d].
Proof.
  apply (failure_is_reported_without_state (stub (Err (mkError "timeout"))) tt
           emptyResponse (OpRead (stateOf "cmp_1")) (mkError "timeout")).
  reflexivity.
Defined.

(* ================================================================== *)
(** ** Further properties of [ImportState] *)

Lemma Equal_refl (d : diag.Diagnostic) : diag.Equal d d = true.
Proof.
  destruct d as [sev summary detail]. unfold diag.Equal. simpl.
  rewrite !String.eqb_refl. now destruct sev.
Qed.

Lemma In_Contains (diags : diag.Diagnostics) (d : diag.Diagnostic) :
  In d diags -> diag.Contains diags d = true.
Proof.
  intros H. unfold diag.Contains. apply existsb_exists.
  exists d. split; [exact H | apply Equal_refl].
Qed.

(** Reporting the same error twice leaves one entry. *)
Lemma AddError_idem (diags : diag.Diagnostics) (summary detail : string) :
  diag.AddError (diag.AddError diags summary detail) summary detail
  = diag.AddError diags summary detail.
Proof.
  pose proof (In_Contains _ _ (AddError_In diags summary detail)) as H.
  unfold diag.AddError at 1. simpl. now rewrite H.
Qed.

Lemma AddError_incl (diags : diag.Diagnostics) (summary detail : string) :
  incl diags (diag.AddError diags summary detail).
Proof.
  unfold diag.AddError. simpl.
  destruct (diag.Contains diags _); [apply incl_refl | now apply incl_appl].
Qed.

(** An identifier is malformed or splits into two non-empty segments. *)
Lemma import_cases (raw : string) :
  (length (strings.Split raw slash) <> 2%nat
   \/ In EmptyString (strings.Split raw slash))
  \/ exists P I, strings.Split raw slash = [P; I]
                 /\ P <> EmptyString /\ I <> EmptyString.
Proof.
  destruct (strings.Split raw slash) as [|P [|I [|? ?]]] eqn:Es;
    try (left; left; simpl; lia).
  destruct (string_dec P EmptyString) as [->|HP]; [left; right; now left|].
  destruct (string_dec I EmptyString) as [->|HI];
    [left; right; right; now left|].
  right. now exists P, I.
Qed.

(** Starting without an error, ImportState reports none exactly for the
    identifiers of the form [P ++ "/" ++ I] with [P] and [I] non-empty and
    free of '/'. *)
Theorem import_accepts_exactly (raw : string) (resp : Response.t) :
  diag.HasError (Response.Diagnostics resp) = false ->
  diag.HasError
    (Response.Diagnostics (ImportState (ImportStateRequest.mk raw) resp))
  = false
  <-> exists P I, raw = P ++ "/" ++ I
                  /\ P <> EmptyString /\ I <> EmptyString
                  /\ strings.lacks slash P = true
                  /\ strings.lacks slash I = true.
Proof.
  intros Hne. split.
  - intros H.
    destruct (ImportState_no_error raw resp H) as (P & I & Hs & HP & HI).
    exists P, I. split; [exact (Split_two slash raw P I Hs)|].
    split; [exact HP|]. split; [exact HI|].
    pose proof (Split_lacks slash raw) as Hl. rewrite Hs in Hl.
    inversion Hl as [|? ? HlP Hl']; subst.
    inversion Hl' as [|? ? HlI _]; subst. now split.
  - intros (P & I & -> & HP & HI & HlP & HlI).
    now rewrite (import_of_concat P I resp HlP HlI HP HI).
Qed.

Lemma import_accepts_exactly_witness :
  diag.HasError
    (Response.Diagnostics
       (ImportState (ImportStateRequest.mk "pg_1/cmp_42") emptyResponse))
  = false
  <-> exists P I, "pg_1/cmp_42" = P ++ "/" ++ I
                  /\ P <> EmptyString /\ I <> EmptyString
                  /\ strings.lacks slash P = true
                  /\ strings.lacks slash I = true.
Proof.
  apply (import_accepts_exactly "pg_1/cmp_42" emptyResponse). reflexivity.
Defined.

(** Importing the same identifier into the response of an import changes
    nothing: neither a second error entry nor another state. *)
Theorem import_idempotent (req : ImportStateRequest.t) (resp : Response.t) :
  ImportState req (ImportState req resp) = ImportState req resp.
Proof.
  destruct req as [raw].
  destruct (import_cases raw) as [Hbad | (P & I & Hs & HP & HI)].
  - rewrite !(ImportState_reject raw _ Hbad).
    destruct resp as [st diags]. unfold Response.set_Diagnostics. simpl.
    now rewrite AddError_idem.
  - rewrite !(ImportState_accept raw P I _ Hs HP HI). simpl.
    destruct (objectOf (Response.State resp)). reflexivity.
Qed.

(** An import that reports no error writes [id] and [page_id] only: the
    six other attributes are those of the state it started from, null when
    that state was null. *)
Theorem import_keeps_other_attributes (raw : string) (resp : Response.t)
        (imported : componentResourceModel) :
  diag.HasError
    (Response.Diagnostics (ImportState (ImportStateRequest.mk raw) resp))
  = false ->
  Response.State (ImportState (ImportStateRequest.mk raw) resp)
  = Some imported ->
  let prior := objectOf (Response.State resp) in
  Name imported = Name prior
  /\ Description imported = Description prior
  /\ ShowUptime imported = ShowUptime prior
  /\ Grouped imported = Grouped prior
  /\ GroupName imported = GroupName prior
  /\ GroupId imported = GroupId prior.
Proof.
  intros H Hst prior.
  destruct (ImportState_no_error raw resp H) as (P & I & Hs & HP & HI).
  rewrite (ImportState_accept raw P I resp Hs HP HI) in Hst. simpl in Hst.
  injection Hst as <-. simpl. now repeat split.
Qed.

Lemma import_keeps_other_attributes_witness :
  let imported :=
    mkModel (types.StringValue "cmp_42") types.StringNull
            (types.StringValue "pg_1") types.StringNull types.BoolNull
            types.BoolNull types.StringNull types.StringNull in
  Name imported = types.StringNull
  /\ Description imported = types.StringNull
  /\ ShowUptime imported = types.BoolNull
  /\ Grouped imported = types.BoolNull
  /\ GroupName imported = types.StringNull
  /\ GroupId imported = types.StringNull.
Proof.
  intros imported.
  apply (import_keeps_other_attributes "pg_1/cmp_42" emptyResponse imported);
    reflexivity.
Defined.

(* ================================================================== *)
(** ** Further properties of Create, Read, Update and Delete *)

(** Every operation calls the client once, and not at all when the response
    it is given already carries an error: no retry, whatever the answer. *)
Theorem one_call_unless_errored {W : Type} (c : client W) (w : W)
        (resp : Response.t) (o : operation) :
  length (calls c (perform o resp) w)
  = if diag.HasError (Response.Diagnostics resp) then 0%nat else 1%nat.
Proof.
  destruct o; simpl; unfold Create, Read, Update, Delete; simpl;
    destruct (diag.HasError (Response.Diagnostics resp)); simpl;
    try reflexivity;
    destruct (c _ _ w) as [[x|] w']; reflexivity.
Qed.

(** An operation given a response with an error returns that response as
    it is and leaves the remote service alone. *)
Theorem errored_response_short_circuits {W : Type} (c : client W) (w : W)
        (resp : Response.t) (o : operation) :
  diag.HasError (Response.Diagnostics resp) = true ->
  run c (perform o resp) w = (resp, w)
  /\ calls c (perform o resp) w = [].
Proof.
  intros H.
  destruct o; simpl; unfold Create, Read, Update, Delete; simpl;
    rewrite H; destruct resp; split; reflexivity.
Qed.

Lemma errored_response_short_circuits_witness :
  run (stub (Ok backendComponent))
      (perform (OpCreate apiPlan) erroredResponse) tt
  = (erroredResponse, tt)
  /\ calls (stub (Ok backendComponent))
           (perform (OpCreate apiPlan) erroredResponse) tt = [].
Proof.
  apply (errored_response_short_circuits (stub (Ok backendComponent)) tt
           erroredResponse (OpCreate apiPlan)).
  reflexivity.
Defined.

(** Started without an error, an operation ends with one exactly when its
    client call returned an error; otherwise its diagnostics are those it
    started with. *)
Theorem error_iff_call_failed {W : Type} (c : client W) (w : W)
        (resp : Response.t) (o : operation) :
  diag.HasError (Response.Diagnostics resp) = false ->
  let resp' := fst (run c (perform o resp) w) in
  (diag.HasError (Response.Diagnostics resp') = true
   <-> exists err, answered c w (perform o resp) (Err err))
  /\ (diag.HasError (Response.Diagnostics resp') = true
      \/ Response.Diagnostics resp' = Response.Diagnostics resp).
Proof.
  intros Hne resp'. subst resp'.
  destruct o; simpl; unfold Create, Read, Update, Delete; simpl;
    rewrite Hne; simpl;
    destruct (c _ _ w) as [[x|] w']; simpl;
    try rewrite AddError_HasError; try rewrite Hne;
    (split; [split; intros H | first [now left | now right]]);
    first [ discriminate H
          | eexists; reflexivity
          | destruct H as [err H]; discriminate H
          | reflexivity ].
Qed.

Lemma error_iff_call_failed_witness :
  let resp' := fst (run (stub (Err (mkError "timeout")))
                        (perform (OpDelete (stateOf "cmp_1")) emptyResponse)
                        tt) in
  (diag.HasError (Response.Diagnostics resp') = true
   <-> exists err,
        answered (stub (Err (mkError "timeout"))) tt
                 (perform (OpDelete (stateOf "cmp_1")) emptyResponse)
                 (Err err))
  /\ (diag.HasError (Response.Diagnostics resp') = true
      \/ Response.Diagnostics resp' = Response.Diagnostics emptyResponse).
Proof.
  apply (error_iff_call_failed (stub (Err (mkError "timeout"))) tt
           emptyResponse (OpDelete (stateOf "cmp_1"))).
  reflexivity.
Defined.

(** Delete never writes the state of its response, and either reports an
    error or returns the response it was given. *)
Theorem delete_never_writes_state {W : Type} (c : client W) (w : W)
        (resp : Response.t) (state : componentResourceModel) :
  let resp' := fst (run c (Delete (DeleteRequest.mk state) resp) w) in
  Response.State resp' = Response.State resp
  /\ (resp' = resp \/ diag.HasError (Response.Diagnostics resp') = true).
Proof.
  destruct resp as [st diags]. unfold Delete. simpl.
  destruct (diag.HasError diags) eqn:E; simpl.
  - split; [reflexivity | now left].
  - destruct (c _ _ w) as [[err|] w']; simpl.
    + split; [reflexivity | right; apply AddError_HasError].
    + split; [reflexivity | now left].
Qed.

(** No operation drops a diagnostic: whatever the response held before is
    still in it afterwards. *)
Theorem diagnostics_only_grow {W : Type} (c : client W) (w : W)
        (resp : Response.t) (o : operation) (req : ImportStateRequest.t) :
  incl (Response.Diagnostics resp)
       (Response.Diagnostics (fst (run c (perform o resp) w)))
  /\ incl (Response.Diagnostics resp)
          (Response.Diagnostics (ImportState req resp)).
Proof.
  split.
  - destruct o; simpl; unfold Create, Read, Update, Delete; simpl;
      destruct (diag.HasError (Response.Diagnostics resp)); simpl;
      try apply incl_refl;
      destruct (c _ _ w) as [[x|] w']; simpl;
      first [apply incl_refl | apply AddError_incl].
  - destruct req as [raw].
    destruct (import_cases raw) as [Hbad | (P & I & Hs & HP & HI)].
    + rewrite (ImportState_reject raw resp Hbad). simpl. apply AddError_incl.
    + rewrite (ImportState_accept raw P I resp Hs HP HI). apply incl_refl.
Qed.

(* ================================================================== *)
(** ** How the operations compose *)

(** After an import of [P ++ "/" ++ I], Read and Delete of the imported
    state address the client with page [P] and component [I]. *)
Theorem import_then_read_targets {W : Type} (c : client W) (w : W)
        (raw P I : string) (resp resp2 : Response.t)
        (imported : componentResourceModel) :
  strings.Split raw slash = [P; I] ->
  P <> EmptyString -> I <> EmptyString ->
  Response.State (ImportState (ImportStateRequest.mk raw) resp)
  = Some imported ->
  diag.HasError (Response.Diagnostics resp2) = false ->
  calls c (Read (ReadRequest.mk imported) resp2) w
  = [Called (GetComponent P I)]
  /\ calls c (Delete (DeleteRequest.mk imported) resp2) w
     = [Called (DeleteComponent P I)].
Proof.
  intros Hs HP HI Hst Hne.
  rewrite (ImportState_accept raw P I resp Hs HP HI) in Hst. simpl in Hst.
  injection Hst as <-.
  unfold Read, Delete. simpl. rewrite Hne. simpl. split.
  - destruct (c _ _ w) as [[component|err] w']; reflexivity.
  - destruct (c _ _ w) as [[err|] w']; reflexivity.
Qed.

Lemma import_then_read_targets_witness :
  calls (stub (Ok backendComponent))
        (Read (ReadRequest.mk
                 (mkModel (types.StringValue "cmp_42") types.StringNull
                          (types.StringValue "pg_1") types.StringNull
                          types.BoolNull types.BoolNull types.StringNull
                          types.StringNull))
              emptyResponse) tt
  = [Called (GetComponent "pg_1" "cmp_42")]
  /\ calls (stub (Ok backendComponent))
           (Delete (DeleteRequest.mk
                      (mkModel (types.StringValue "cmp_42") types.StringNull
                               (types.StringValue "pg_1") types.StringNull
                               types.BoolNull types.BoolNull types.StringNull
                               types.StringNull))
                   emptyResponse) tt
     = [Called (DeleteComponent "pg_1" "cmp_42")].
Proof.
  apply (import_then_read_targets (stub (Ok backendComponent)) tt
           "pg_1/cmp_42" "pg_1" "cmp_42" emptyResponse emptyResponse);
    [reflexivity | discriminate | discriminate | reflexivity | reflexivity].
Defined.

(** Read depends on the prior state through [ID] and [PageID] only. *)
Lemma Read_same_key {W : Type} (c : client W) (w : W) (resp : Response.t)
      (s1 s2 : componentResourceModel) :
  ID s1 = ID s2 -> PageID s1 = PageID s2 ->
  run c (Read (ReadRequest.mk s1) resp) w
  = run c (Read (ReadRequest.mk s2) resp) w.
Proof.
  intros Hid Hpage. destruct s1, s2. simpl in Hid, Hpage. subst.
  unfold Read. simpl.
  destruct (diag.HasError (Response.Diagnostics resp)); [reflexivity|].
  simpl. destruct (c _ _ w) as [[component|err] w']; reflexivity.
Qed.

(** Importing the identifier made of a state's page id and id recovers the
    resource: a Read of the imported state gives what a Read of the
    original state gives, for every client and every answer. *)
Theorem import_recovers_state {W : Type} (c : client W) (w : W)
        (P I : string) (resp resp2 : Response.t)
        (original imported : componentResourceModel) :
  PageID original = types.StringValue P ->
  ID original = types.StringValue I ->
  P <> EmptyString -> I <> EmptyString ->
  strings.lacks slash P = true -> strings.lacks slash I = true ->
  Response.State (ImportState (ImportStateRequest.mk (P ++ "/" ++ I)) resp)
  = Some imported ->
  run c (Read (ReadRequest.mk imported) resp2) w
  = run c (Read (ReadRequest.mk original) resp2) w.
Proof.
  intros Hpage Hid HP HI HlP HlI Hst.
  rewrite (import_of_concat P I resp HlP HlI HP HI) in Hst. simpl in Hst.
  injection Hst as <-.
  apply Read_same_key; simpl; congruence.
Qed.

Lemma import_recovers_state_witness :
  run (stub (Ok backendComponent))
      (Read (ReadRequest.mk
               (mkModel (types.StringValue "cmp_42") types.StringNull
                        (types.StringValue "pg_1") types.StringNull
                        types.BoolNull types.BoolNull types.StringNull
                        types.StringNull))
            emptyResponse) tt
  = run (stub (Ok backendComponent))
        (Read (ReadRequest.mk (Create_apply apiPlan backendComponent))
              emptyResponse) tt.
Proof.
  apply (import_recovers_state (stub (Ok backendComponent)) tt
           "pg_1" "cmp_42" emptyResponse emptyResponse);
    [reflexivity | reflexivity | discriminate | discriminate
     | reflexivity | reflexivity | reflexivity].
Defined.

(** A second Read that gets the same component stores the state the first
    Read stored. *)
Theorem read_is_idempotent {W : Type} (c : client W) (w w2 : W)
        (resp resp2 : Response.t) (state refreshed : componentResourceModel)
        (component : ComponentResponse.t) :
  answered c w (Read (ReadRequest.mk state) resp) (Ok component) ->
  Response.State (fst (run c (Read (ReadRequest.mk state) resp) w))
  = Some refreshed ->
  answered c w2 (Read (ReadRequest.mk refreshed) resp2) (Ok component) ->
  Response.State (fst (run c (Read (ReadRequest.mk refreshed) resp2) w2))
  = Some refreshed.
Proof.
  intros H1 Hst H2.
  rewrite (Read_ok c w resp state component H1) in Hst. simpl in Hst.
  injection Hst as <-.
  now rewrite (Read_ok c w2 resp2 _ component H2).
Qed.

Lemma read_is_idempotent_witness :
  Response.State
    (fst (run (stub (Ok backendComponent))
              (Read (ReadRequest.mk (Read_apply apiPlan backendComponent))
                    emptyResponse) tt))
  = Some (Read_apply apiPlan backendComponent).
Proof.
  apply (read_is_idempotent (stub (Ok backendComponent)) tt tt
           emptyResponse emptyResponse apiPlan
           (Read_apply apiPlan backendComponent) backendComponent);
    reflexivity.
Defined.

(** A Read that follows Create or Update with the same component stores the
    state they stored exactly when the plan's [Name] and [ShowUptime] are
    those of the component and its [Grouped] is the known presence of the
    component's group name; otherwise the Read changes the state. *)
Theorem read_after_apply_keeps_state_iff {W : Type} (c : client W) (w : W)
        (resp : Response.t) (plan : componentResourceModel)
        (component : ComponentResponse.t) :
  answered c w (Read (ReadRequest.mk (Create_apply plan component)) resp)
           (Ok component) ->
  Update_apply plan component = Create_apply plan component
  /\ (Response.State
        (fst (run c (Read (ReadRequest.mk (Create_apply plan component)) resp)
                  w))
      = Some (Create_apply plan component)
      <-> Name plan
          = types.StringPointerValue (ComponentResponse.Name component)
          /\ ShowUptime plan
             = types.BoolPointerValue (ComponentResponse.ShowUptime component)
          /\ Grouped plan
             = types.BoolValue
                 (not_nil (ComponentGroup.Name
                             (ComponentResponse.Group component)))).
Proof.
  intros H. split; [reflexivity|].
  rewrite (Read_ok c w resp _ component H).
  destruct plan as [id name page descr uptime grouped gname gid].
  unfold Read_apply, Create_apply. simpl. split.
  - intros Heq. injection Heq as Hn Hu Hg. now repeat split.
  - intros (Hn & Hu & Hg). now rewrite <- Hn, <- Hu, <- Hg.
Qed.

Lemma read_after_apply_keeps_state_iff_witness :
  Update_apply apiPlan backendComponent = Create_apply apiPlan backendComponent
  /\ (Response.State
        (fst (run (stub (Ok backendComponent))
                  (Read (ReadRequest.mk (Create_apply apiPlan backendComponent))
                        emptyResponse) tt))
      = Some (Create_apply apiPlan backendComponent)
      <-> Name apiPlan = types.StringValue "API"
          /\ ShowUptime apiPlan = types.BoolValue true
          /\ Grouped apiPlan = types.BoolValue true).
Proof.
  apply (read_after_apply_keeps_state_iff (stub (Ok backendComponent)) tt
           emptyResponse apiPlan backendComponent).
  reflexivity.
Defined.

(** The state Create stores addresses the later calls: Read and Delete of
    it call the client with the plan's page id and the [id] of Create's
    answer, and with the empty id when that answer carried none. *)
Theorem created_state_addresses_calls {W : Type} (c : client W) (w w2 : W)
        (resp resp2 : Response.t) (plan created : componentResourceModel)
        (component : ComponentResponse.t) :
  answered c w (Create (CreateRequest.mk plan) resp) (Ok component) ->
  Response.State (fst (run c (Create (CreateRequest.mk plan) resp) w))
  = Some created ->
  diag.HasError (Response.Diagnostics resp2) = false ->
  let page := types.ValueString (PageID plan) in
  let id := match ComponentResponse.ID component with
            | Some i => i
            | None => EmptyString
            end in
  calls c (Read (ReadRequest.mk created) resp2) w2
  = [Called (GetComponent page id)]
  /\ calls c (Delete (DeleteRequest.mk created) resp2) w2
     = [Called (DeleteComponent page id)].
Proof.
  intros Hc Hst Hne page id. subst page id.
  rewrite (Create_ok c w resp plan component Hc) in Hst. simpl in Hst.
  injection Hst as <-.
  unfold Read, Delete. simpl. rewrite Hne. simpl.
  destruct (ComponentResponse.ID component) as [i|]; simpl; split.
  - destruct (c _ _ w2) as [[x|err] w']; reflexivity.
  - destruct (c _ _ w2) as [[err|] w']; reflexivity.
  - destruct (c _ _ w2) as [[x|err] w']; reflexivity.
  - destruct (c _ _ w2) as [[err|] w']; reflexivity.
Qed.

Lemma created_state_addresses_calls_witness :
  calls (stub (Ok bareComponent))
        (Read (ReadRequest.mk (Create_apply apiPlan bareComponent))
              emptyResponse) tt
  = [Called (GetComponent "pg_1" EmptyString)]
  /\ calls (stub (Ok bareComponent))
           (Delete (DeleteRequest.mk (Create_apply apiPlan bareComponent))
                   emptyResponse) tt
     = [Called (DeleteComponent "pg_1" EmptyString)].
Proof.
  apply (created_state_addresses_calls (stub (Ok bareComponent)) tt tt
           emptyResponse emptyResponse apiPlan
           (Create_apply apiPlan bareComponent) bareComponent);
    reflexivity.
Defined.

(** The request bodies of Create and Update agree on every field but
    [Group], and are the same body exactly when the plan's [GroupId] and
    [GroupName] give the same pointer. *)
Theorem request_bodies_differ_in_group_only (plan : componentResourceModel) :
  is_.Name (Create_item plan) = is_.Name (Update_item plan)
  /\ is_.Description (Create_item plan) = is_.Description (Update_item plan)
  /\ is_.ShowUptime (Create_item plan) = is_.ShowUptime (Update_item plan)
  /\ is_.Grouped (Create_item plan) = is_.Grouped (Update_item plan)
  /\ is_.GroupId (Create_item plan) = is_.GroupId (Update_item plan)
  /\ (Create_item plan = Update_item plan
      <-> types.ValueStringPointer (GroupId plan)
          = types.ValueStringPointer (GroupName plan)).
Proof.
  repeat (split; [reflexivity|]).
  unfold Create_item, Update_item. split.
  - intros H. now injection H.
  - now intros ->.
Qed.

(* ================================================================== *)
(** ** Properties of Configure and Metadata *)

(** A run of Configure calls panics exactly when some request carries
    provider data of another type than the client's; otherwise the resource
    ends with the client of the last request that carried one, and with the
    client it had when every request carried nil. *)
Theorem configure_keeps_last_client {C : Type} (r : componentResource.t C)
        (reqs : list (ConfigureRequest.t C)) :
  ConfigureAll r reqs
  = if existsb isOther reqs then Panics
    else Returns (componentResource.mk
                    (lastClient (componentResource.client r) reqs)).
Proof.
  revert r. induction reqs as [|[data] rest IH]; intros [p].
  - reflexivity.
  - destruct data as [|q|]; simpl.
    + apply (IH (componentResource.mk p)).
    + apply (IH (componentResource.mk q)).
    + reflexivity.
Qed.

Lemma append_inv_tail (a b s : string) : a ++ s = b ++ s -> a = b.
Proof.
  revert b. induction a as [|x a IH]; intros [|y b] H; simpl in H.
  - reflexivity.
  - apply (f_equal String.length) in H. simpl in H.
    rewrite append_length in H. lia.
  - apply (f_equal String.length) in H. simpl in H.
    rewrite append_length in H. lia.
  - injection H as -> H. now rewrite (IH b H).
Qed.

(** The resource type name tells the provider apart: two providers get the
    same name from Metadata only if their type names are the same, whatever
    the responses held before. *)
Theorem metadata_type_name_injective (req1 req2 : MetadataRequest.t)
        (resp1 resp2 : MetadataResponse.t) :
  MetadataResponse.TypeName (Metadata req1 resp1)
  = MetadataResponse.TypeName (Metadata req2 resp2) ->
  req1 = req2.
Proof.
  destruct req1 as [n1], req2 as [n2]. simpl. intros H.
  now rewrite (append_inv_tail n1 n2 _ H).
Qed.

Lemma metadata_type_name_injective_witness :
  MetadataRequest.mk "instatus" = MetadataRequest.mk "instatus".
Proof.
  apply (metadata_type_name_injective
           (MetadataRequest.mk "instatus") (MetadataRequest.mk "instatus")
           (MetadataResponse.mk EmptyString)
           (MetadataResponse.mk "instatus_component")).
  reflexivity.
Defined.

(* ================================================================== *)
(** ** Properties of the schema *)

(** The struct and the schema describe the same attributes: a name is the
    tag of a field exactly when the schema has an attribute of that name,
    and then the field's value type is the attribute's. *)
Theorem model_fields_match_schema (name : string) :
  lookupField name modelFields
  = option_map schema.kind (schema.lookup name (schema.Attributes Schema)).
Proof.
  cbv [modelFields Schema schema.Attributes lookupField schema.lookup].
  repeat match goal with
         | |- context [String.eqb ?k name] =>
             destruct (String.eqb_spec k name) as [<-|?]; [reflexivity|]
         end.
  reflexivity.
Qed.

(** The schema keeps the framework's rules and fixes what a configuration
    may set: attribute names are distinct; each attribute is required, or
    optional and/or computed, and a default comes with [Computed]; the
    required attributes are [page_id] and [name]; [id] is the one attribute
    a configuration cannot set; [grouped] is the one attribute with a
    default. *)
Theorem schema_rules :
  let attrs := schema.Attributes Schema in
  NoDup (map fst attrs)
  /\ Forall (fun entry => wellFormed (snd entry) = true) attrs
  /\ map fst (filter (fun entry => schema.Required (snd entry)) attrs)
     = ["page_id"; "name"]
  /\ map fst (filter (fun entry => negb (configurable (snd entry))) attrs)
     = ["id"]
  /\ map (fun entry => (fst entry, schema.Default (snd entry)))
         (filter (fun entry =>
                    match schema.Default (snd entry) with
                    | Some _ => true
                    | None => false
                    end) attrs)
     = [("grouped", Some (schema.StaticBool false))].
Proof.
  simpl. split; [|split; [|repeat split]].
  - repeat constructor; simpl; intuition discriminate.
  - repeat constructor.
Qed.
